(** * Skytebaner: local-date codec, synthetic stevner and the date filter

    A shallow embedding of the logic of [src/App.jsx]: the helpers
    [formatDateLocal] and [parseLocalDate], the generator
    [generateStevnerForRange], the predicate [isEventWithinRange] and the
    memoised list [visibleRanges].

    JavaScript values are modelled as follows.
    - A Number that the program computes is either NaN or an integer; it is
      [num], with the integer part in [Z].  The two zeros of IEEE 754 are
      one [Int 0]: nothing here tells them apart.  The integers the program
      can reach from an array position (below 2^32) and a character code stay
      far below 2^53, where double arithmetic is exact.
    - A String is a [string]; a character stands for the UTF-16 code unit of
      the same code (0..255).
    - A Date is its time value (ECMAScript 21.4.1): NaN, or the milliseconds
      since the epoch in UTC.  The local time zone is a fixed offset
      [tza] (the section variable), so daylight saving shifts are outside
      the model.
    - A call that can throw returns a [result]. *)

From Stdlib Require Import ZArith Lia List String Ascii Bool.
Import ListNotations.
Local Open Scope string_scope.
Local Open Scope Z_scope.

Ltac Zify.zify_post_hook ::= Z.to_euclidean_division_equations.

(** ** Numbers *)

Inductive num : Type :=
| NaN
| Int (z : Z).

Module Num.

Definition add (a b : num) : num :=
  match a, b with
  | Int x, Int y => Int (x + y)
  | _, _ => NaN
  end.

Definition sub (a b : num) : num :=
  match a, b with
  | Int x, Int y => Int (x - y)
  | _, _ => NaN
  end.

(** The [%] operator: the remainder has the sign of the dividend, and a
    zero divisor gives NaN. *)
Definition rem (a b : num) : num :=
  match a, b with
  | Int x, Int y => if y =? 0 then NaN else Int (Z.rem x y)
  | _, _ => NaN
  end.

(** [a < b]: false as soon as one side is NaN. *)
Definition lt (a b : num) : bool :=
  match a, b with
  | Int x, Int y => x <? y
  | _, _ => false
  end.

(** [Math.min(a, b)]. *)
Definition min (a b : num) : num :=
  match a, b with
  | Int x, Int y => Int (Z.min x y)
  | _, _ => NaN
  end.

(** [Number.isNaN]. *)
Definition isNaN (a : num) : bool :=
  match a with
  | NaN => true
  | Int _ => false
  end.

(** ToBoolean of a Number: NaN and zero are falsy. *)
Definition truthy (a : num) : bool :=
  match a with
  | NaN => false
  | Int x => negb (x =? 0)
  end.

End Num.

(** ** Time values (ECMAScript 21.4.1) *)

Module Time.

Definition msPerDay : Z := 86400000.
Definition maxTime : Z := 8640000000000000.

Definition Day (t : Z) : Z := t / msPerDay.
Definition TimeWithinDay (t : Z) : Z := t mod msPerDay.

Definition isLeap (y : Z) : bool :=
  if negb (y mod 4 =? 0) then false
  else if negb (y mod 100 =? 0) then true
  else if negb (y mod 400 =? 0) then false
  else true.

Definition DaysInYear (y : Z) : Z := if isLeap y then 366 else 365.

Definition DayFromYear (y : Z) : Z :=
  365 * (y - 1970) + (y - 1969) / 4 - (y - 1901) / 100 + (y - 1601) / 400.

(** The largest [y] with [DayFromYear y <= d], found from the estimate
    given by the mean length of a Gregorian year. *)
Definition YearFromDay (d : Z) : Z :=
  let y := 1970 + (400 * d) / 146097 in
  if DayFromYear (y + 1) <=? d then y + 1
  else if DayFromYear y <=? d then y
  else y - 1.

Definition YearFromTime (t : Z) : Z := YearFromDay (Day t).

Definition DayWithinYear (t : Z) : Z := Day t - DayFromYear (YearFromTime t).

(** Number of days of the year before month [m] (0 = January). *)
Definition monthStart (leap : bool) (m : Z) : Z :=
  let l := if leap then 1 else 0 in
  if m <=? 0 then 0
  else if m =? 1 then 31
  else if m =? 2 then 59 + l
  else if m =? 3 then 90 + l
  else if m =? 4 then 120 + l
  else if m =? 5 then 151 + l
  else if m =? 6 then 181 + l
  else if m =? 7 then 212 + l
  else if m =? 8 then 243 + l
  else if m =? 9 then 273 + l
  else if m =? 10 then 304 + l
  else if m =? 11 then 334 + l
  else 365 + l.

Definition MonthFromDayInYear (leap : bool) (d : Z) : Z :=
  if d <? monthStart leap 1 then 0
  else if d <? monthStart leap 2 then 1
  else if d <? monthStart leap 3 then 2
  else if d <? monthStart leap 4 then 3
  else if d <? monthStart leap 5 then 4
  else if d <? monthStart leap 6 then 5
  else if d <? monthStart leap 7 then 6
  else if d <? monthStart leap 8 then 7
  else if d <? monthStart leap 9 then 8
  else if d <? monthStart leap 10 then 9
  else if d <? monthStart leap 11 then 10
  else 11.

Definition MonthFromTime (t : Z) : Z :=
  MonthFromDayInYear (isLeap (YearFromTime t)) (DayWithinYear t).

Definition DateFromTime (t : Z) : Z :=
  DayWithinYear t
  - monthStart (isLeap (YearFromTime t)) (MonthFromTime t) + 1.

(** [MakeDay(year, month, date)] on integers: the day number of the first
    of the month, plus [date - 1]. *)
Definition MakeDay (year month date : Z) : Z :=
  let ym := year + month / 12 in
  let mn := month mod 12 in
  DayFromYear ym + monthStart (isLeap ym) mn + date - 1.

Definition MakeTime (hour min sec ms : Z) : Z :=
  hour * 3600000 + min * 60000 + sec * 1000 + ms.

Definition MakeDate (day time : Z) : Z := day * msPerDay + time.

Definition TimeClip (t : Z) : num :=
  if Z.abs t <=? maxTime then Int t else NaN.

Definition MakeFullYear (y : Z) : Z :=
  if (0 <=? y) && (y <=? 99) then 1900 + y else y.

End Time.

Import Time.

(** ** Strings *)

Module Str.

Definition code (c : ascii) : Z := Z.of_N (N_of_ascii c).

(** ToBoolean of a String: only the empty string is falsy. *)
Definition truthy (s : string) : bool :=
  match s with
  | EmptyString => false
  | String _ _ => true
  end.

(** [s.charCodeAt(0)]: NaN on the empty string. *)
Definition charCodeAt0 (s : string) : num :=
  match s with
  | EmptyString => NaN
  | String c _ => Int (code c)
  end.

(** [s.split(sep)] for a one-character separator. *)
Fixpoint split (sep : ascii) (s : string) : list string :=
  match s with
  | EmptyString => [EmptyString]
  | String c r =>
      if Ascii.eqb c sep then EmptyString :: split sep r
      else match split sep r with
           | h :: t => String c h :: t
           | [] => [String c EmptyString]
           end
  end.

Definition isDigit (c : ascii) : bool := (48 <=? code c) && (code c <=? 57).

(** WhiteSpace and LineTerminator code units below 256. *)
Definition isWhite (c : ascii) : bool :=
  let n := code c in
  ((9 <=? n) && (n <=? 13)) || (n =? 32) || (n =? 160).

Fixpoint trimStart (s : string) : string :=
  match s with
  | String c r => if isWhite c then trimStart r else s
  | EmptyString => EmptyString
  end.

Fixpoint takeDigits (s : string) : string :=
  match s with
  | String c r => if isDigit c then String c (takeDigits r) else EmptyString
  | EmptyString => EmptyString
  end.

Fixpoint allDigits (s : string) : bool :=
  match s with
  | String c r => isDigit c && allDigits r
  | EmptyString => true
  end.

Fixpoint valueOfDigits (acc : Z) (s : string) : Z :=
  match s with
  | String c r => valueOfDigits (10 * acc + (code c - 48)) r
  | EmptyString => acc
  end.

(** [parseInt(s, 10)] (ECMAScript 19.2.5): leading white space is
    skipped, one sign is read, and the longest prefix of decimal digits is
    the value; NaN when that prefix is empty. *)
Definition parseInt10 (s : string) : num :=
  let t := trimStart s in
  let '(sign, u) :=
    match t with
    | String "-"%char r => (-1, r)
    | String "+"%char r => (1, r)
    | _ => (1, t)
    end in
  match takeDigits u with
  | EmptyString => NaN
  | ds => Int (sign * valueOfDigits 0 ds)
  end.

Definition digitChar (d : Z) : ascii := ascii_of_N (Z.to_N (48 + d)).

Fixpoint decimal (fuel : nat) (n : Z) : string :=
  match fuel with
  | O => EmptyString
  | S f =>
      (if n <? 10 then EmptyString else decimal f (n / 10))
      ++ String (digitChar (n mod 10)) EmptyString
  end.

(** Decimal digits of a non-negative integer; the number of binary digits
    bounds the number of decimal ones. *)
Definition ofNat (n : Z) : string := decimal (S (Z.to_nat (Z.log2 n))) n.

(** [String(x)] for the Numbers of the model (integers below 10^21 in
    absolute value print without an exponent). *)
Definition ofNum (x : num) : string :=
  match x with
  | NaN => "NaN"
  | Int z => if z <? 0 then String "-"%char (ofNat (- z)) else ofNat z
  end.

Fixpoint repeatChar (n : nat) (c : ascii) : string :=
  match n with
  | O => EmptyString
  | S k => String c (repeatChar k c)
  end.

(** [s.padStart(len, c)] for a one-character filler. *)
Definition padStart (len : nat) (c : ascii) (s : string) : string :=
  repeatChar (len - String.length s) c ++ s.

End Str.

(** ** Results of calls that can throw *)

Inductive exn : Type :=
| TypeError.

Inductive result (A : Type) : Type :=
| Ret (a : A)
| Throw (e : exn).

Arguments Ret {A} a.
Arguments Throw {A} e.

Definition bind {A B : Type} (r : result A) (k : A -> result B) : result B :=
  match r with
  | Ret a => k a
  | Throw e => Throw e
  end.

Notation "'do' x <- r ; k" := (bind r (fun x => k))
  (at level 10, x name, r at level 100, k at level 200).

Module Arr.

(** [xs.some(f)]: stops at the first element on which [f] is true; an
    exception of [f] aborts the scan. *)
Fixpoint some {A : Type} (f : A -> result bool) (xs : list A) : result bool :=
  match xs with
  | [] => Ret false
  | x :: r => do b <- f x; if b then Ret true else some f r
  end.

(** [xs.filter(f)] with a callback that can throw. *)
Fixpoint filter {A : Type} (f : A -> result bool) (xs : list A)
  : result (list A) :=
  match xs with
  | [] => Ret []
  | x :: r =>
      do b <- f x;
      do r' <- filter f r;
      Ret (if b then x :: r' else r')
  end.

End Arr.

(** ** Records of the data set *)

Record Event : Type := mkEvent {
  id : string;
  name : string;
  rsvpOpen : bool;
  attendees : num;
  maxAttendees : num;
  date : string
}.

(** [stevner] is [None] when the field is not an array. *)
Record Range : Type := mkRange {
  skytterlag_id : string;
  stevner : option (list Event)
}.

(** A Date object: its time value. *)
Record Date : Type := mkDate { getTime : num }.

Definition baseNames : list string :=
  ["Banestevne"; "Kretsstevne"; "Treningskveld"; "Klubbmesterskap"].

(** [`${xs[k]}`]: an index outside the array reads [undefined]. *)
Definition nameAt (xs : list string) (k : Z) : string :=
  if k <? 0 then "undefined"
  else nth (Z.to_nat k) xs "undefined".

(** The values of [i] of [for (let i = 0; i < count; i++)]: none when
    [count] is NaN. *)
Definition loopIndices (count : num) : list Z :=
  match count with
  | NaN => []
  | Int c => map Z.of_nat (seq 0 (Z.to_nat c))
  end.

(** A value read by destructuring an array of Numbers: [None] is
    [undefined]. *)
Definition truthyElt (v : option num) : bool :=
  match v with
  | None => false
  | Some x => Num.truthy x
  end.

Definition toNumber (v : option num) : num :=
  match v with
  | None => NaN
  | Some x => x
  end.

(** ** The program *)

Section Program.

(** Offset of local time from UTC, in milliseconds. *)
Variable tza : Z.

Definition LocalTime (t : Z) : Z := t + tza.
Definition UTC (t : Z) : Z := t - tza.

(** [new Date(year, month, date)]: local midnight of that day; years 0 to
    99 mean 1900 to 1999. *)
Definition newDate (year month date : num) : Date :=
  match year, month, date with
  | Int y, Int m, Int dt =>
      mkDate (TimeClip (UTC (MakeDate (MakeDay (MakeFullYear y) m dt)
                                      (MakeTime 0 0 0 0))))
  | _, _, _ => mkDate NaN
  end.

Definition getFullYear (d : Date) : num :=
  match getTime d with
  | NaN => NaN
  | Int t => Int (YearFromTime (LocalTime t))
  end.

Definition getMonth (d : Date) : num :=
  match getTime d with
  | NaN => NaN
  | Int t => Int (MonthFromTime (LocalTime t))
  end.

Definition getDate (d : Date) : num :=
  match getTime d with
  | NaN => NaN
  | Int t => Int (DateFromTime (LocalTime t))
  end.

(** [d.setDate(dt)]: the date after the call. *)
Definition setDate (d : Date) (dt : num) : Date :=
  match getTime d, dt with
  | Int t0, Int n =>
      let t := LocalTime t0 in
      mkDate (TimeClip (UTC (MakeDate
        (MakeDay (YearFromTime t) (MonthFromTime t) n) (TimeWithinDay t))))
  | _, _ => mkDate NaN
  end.

(** [d.setHours(h, m, s, ms)]: the date after the call. *)
Definition setHours (d : Date) (h m sec ms : Z) : Date :=
  match getTime d with
  | Int t0 =>
      let t := LocalTime t0 in
      mkDate (TimeClip (UTC (MakeDate (Day t) (MakeTime h m sec ms))))
  | NaN => mkDate NaN
  end.

(** The relational operators between a Date and a Date or [null]: both
    sides become Numbers, [null] becomes 0. *)
Definition primitive (d : option Date) : num :=
  match d with
  | None => Int 0
  | Some x => getTime x
  end.

Definition formatDateLocal (date : Date) : string :=
  let y := getFullYear date in
  let m := Str.padStart 2 "0" (Str.ofNum (Num.add (getMonth date) (Int 1))) in
  let d := Str.padStart 2 "0" (Str.ofNum (getDate date)) in
  Str.ofNum y ++ "-" ++ m ++ "-" ++ d.

(** [null] is [None]. *)
Definition parseLocalDate (dateStr : string) : option Date :=
  let parts := map Str.parseInt10 (Str.split "-" dateStr) in
  let y := nth_error parts 0 in
  let m := nth_error parts 1 in
  let d := nth_error parts 2 in
  if negb (truthyElt y) || negb (truthyElt m) || negb (truthyElt d)
  then None
  else Some (newDate (toNumber y) (Num.sub (toNumber m) (Int 1)) (toNumber d)).

(** One turn of the loop of [generateStevnerForRange]; [today] is the
    clock value read at the start of the call. *)
Definition stevne (range : Range) (index : Z) (today : Date) (i : Z)
  : Event :=
  let name := nameAt baseNames (Z.rem (index + i) (Z.of_nat (List.length baseNames))) in
  let maxAttendees := 40 + Z.rem (index + i) 4 * 20 in
  let rsvpOpen := negb (Z.rem (index + i) 3 =? 0) in
  let attendees :=
    if rsvpOpen
    then Num.add (Int 10)
           (Num.rem (Int (index * 7 + i * 13)) (Int (maxAttendees - 10)))
    else Num.add (Int 1)
           (Num.rem (Int (index * 5 + i * 11)) (Int maxAttendees)) in
  let dayOffset := 3 + Z.rem (index * 5 + i * 17) 120 in
  let d := setDate today (Num.add (getDate today) (Int dayOffset)) in
  let date := formatDateLocal d in
  {| id := skytterlag_id range ++ "-" ++ Str.ofNum (Int i);
     name := name;
     rsvpOpen := rsvpOpen;
     attendees := Num.min attendees (Int maxAttendees);
     maxAttendees := Int maxAttendees;
     date := date |}.

(** [now] is the time value that [new Date()] reads. *)
Definition generateStevnerForRange (now : Z) (range : Range) (index : Z)
  : list Event :=
  if negb (Z.rem index 2 =? 0) then []
  else
    let count :=
      Num.add (Int 1)
        (Num.rem (Num.add (Str.charCodeAt0 (skytterlag_id range)) (Int index))
                 (Int 2)) in
    let today := mkDate (Int now) in
    map (stevne range index today) (loopIndices count).

(** [startDate] and [endDate] are the state the callback closes over. *)
Definition isEventWithinRange (startDate endDate dateStr : string)
  : result bool :=
  if negb (Str.truthy startDate) && negb (Str.truthy endDate) then Ret true
  else if negb (Str.truthy dateStr) then Ret false
  else
    do d <- match parseLocalDate dateStr with
            | None => Throw TypeError
            | Some d => Ret d
            end;
    if Num.isNaN (getTime d) then Ret false
    else
      do below <- (if Str.truthy startDate
                   then let s := parseLocalDate startDate in
                        Ret (Num.lt (getTime d) (primitive s))
                   else Ret false);
      if (below : bool) then Ret false
      else
        do above <- (if Str.truthy endDate
                     then match parseLocalDate endDate with
                          | None => Throw TypeError
                          | Some e =>
                              let e' := setHours e 23 59 59 999 in
                              Ret (Num.lt (getTime e') (getTime d))
                          end
                     else Ret false);
        if (above : bool) then Ret false else Ret true.

Definition visibleRanges (startDate endDate : string) (ranges : list Range)
  : result (list Range) :=
  if negb (Str.truthy startDate) && negb (Str.truthy endDate)
  then Ret ranges
  else
    Arr.filter
      (fun r =>
         match stevner r with
         | None => Ret false
         | Some evs =>
             Arr.some (fun ev => isEventWithinRange startDate endDate (date ev))
                      evs
         end)
      ranges.

End Program.

(** ** Vocabulary of the properties *)

(** Offsets of real time zones lie within a day of UTC. *)
Definition zoneInRange (tza : Z) : Prop := - msPerDay < tza < msPerDay.

(** Central European Time, the zone of the data set. *)
Definition cet : Z := 3600000.

(** The time values a Date object can hold. *)
Definition validTime (t : Z) : Prop := Z.abs t <= maxTime.

(** A clock reading from which 122 days can be counted in both directions
    without leaving the time values. *)
Definition clockInRange (now : Z) : Prop :=
  Z.abs now + 122 * msPerDay <= maxTime.

Definition sameCalendarDay (tza : Z) (d d' : Date) : Prop :=
  getFullYear tza d = getFullYear tza d'
  /\ getMonth tza d = getMonth tza d'
  /\ getDate tza d = getDate tza d'.

(** [parseLocalDate (formatDateLocal d)] is a date on the calendar day of
    [d]. *)
Definition roundTrips (tza : Z) (d : Date) : Prop :=
  exists d', parseLocalDate tza (formatDateLocal tza d) = Some d'
             /\ sameCalendarDay tza d d'.

(** What an event carries besides its date. *)
Definition withoutDate (e : Event) : string * string * bool * num * num :=
  (id e, name e, rsvpOpen e, attendees e, maxAttendees e).

(** A component of a split date string that makes [parseLocalDate] return
    [null]: it is missing, or [parseInt] reads NaN or zero from it. *)
Definition missingOrZero (c : option string) : Prop :=
  match c with
  | None => True
  | Some x => Str.parseInt10 x = NaN \/ Str.parseInt10 x = Int 0
  end.

(** [c] starts with the non-empty run of decimal digits [ds], of value
    [n], and what follows does not start with a digit. *)
Definition decimalPrefix (c : string) (n : Z) : Prop :=
  exists ds rest,
    c = ds ++ rest /\ ds <> "" /\ Str.allDigits ds = true
    /\ Str.takeDigits rest = "" /\ Str.valueOfDigits 0 ds = n.

(** ** The loader, the popup and the date picker *)

(** [xs.map((x, idx) => f(x, idx))], with the positions counted from
    [idx]. *)
Fixpoint mapIndexed {A B : Type} (f : A -> Z -> B) (idx : Z) (xs : list A)
  : list B :=
  match xs with
  | [] => []
  | x :: r => f x idx :: mapIndexed f (idx + 1) r
  end.

(** The selection that the day picker hands to [onSelect]; a bound that is
    not set is [undefined]. *)
Record DateRange : Type := mkDateRange {
  from : option Date;
  to : option Date
}.

Section Interface.

Variable tza : Z.

(** [withStevner] of the loader: the records that passed the coordinate
    test get their events, the real ones when there are some.  [clock idx]
    is the time that the call of the generator for position [idx] reads. *)
Definition withStevner (clock : Z -> Z) (withCoords : list Range)
  : list Range :=
  mapIndexed
    (fun r idx =>
       {| skytterlag_id := skytterlag_id r;
          stevner :=
            Some match stevner r with
                 | Some (e :: l) => e :: l
                 | _ => generateStevnerForRange tza (clock idx) r idx
                 end |})
    0 withCoords.

(** The events listed in the popup of a range: [None] when the popup has
    no list of events. *)
Definition popupStevner (startDate endDate : string) (r : Range)
  : result (option (list Event)) :=
  match stevner r with
  | Some (e :: l) =>
      do shown <- (if Str.truthy startDate || Str.truthy endDate
                   then Arr.filter
                          (fun ev =>
                             isEventWithinRange tza startDate endDate (date ev))
                          (e :: l)
                   else Ret (e :: l));
      Ret (Some shown)
  | _ => Ret None
  end.

(** [onSelect] of the day picker: the new [startDate] and [endDate]. *)
Definition onSelect (range : option DateRange) : string * string :=
  match range with
  | None => ("", "")
  | Some r =>
      (match from r with
       | Some d => formatDateLocal tza d
       | None => ""
       end,
       match to r with
       | Some d => formatDateLocal tza d
       | None => ""
       end)
  end.

End Interface.

(** The canonical string of a calendar day: what [formatDateLocal] writes
    for year [y], month [m] (1 to 12) and day [d]. *)
Definition canonical (y m d : Z) : string :=
  Str.ofNat y ++ "-" ++ Str.padStart 2 "0" (Str.ofNat m) ++ "-"
  ++ Str.padStart 2 "0" (Str.ofNat d).

(** Number of days of month [m] (1 to 12). *)
Definition daysInMonth (y m : Z) : Z :=
  monthStart (isLeap y) m - monthStart (isLeap y) (m - 1).

(** The filter as a test: an exception counts as a rejection. *)
Definition accepts (tza : Z) (startDate endDate : string) (ev : Event) : bool :=
  match isEventWithinRange tza startDate endDate (date ev) with
  | Ret true => true
  | _ => false
  end.

(** The dates that the day picker hands over: valid, from the year 100
    on. *)
Definition pickerDate (tza : Z) (d : Date) : Prop :=
  exists t, d = mkDate (Int t) /\ validTime t
            /\ 100 <= YearFromTime (LocalTime tza t).

(** A day of the calendar, in the years whose days are time values at
    every offset: the year, the month (1 to 12) and the day of the
    month. *)
Definition calendarDay (y m d : Z) : Prop :=
  100 <= y <= 275000 /\ 1 <= m <= 12 /\ 1 <= d <= daysInMonth y m.

Lemma isLeap_spec y :
  isLeap y = true <-> y mod 4 = 0 /\ (y mod 100 <> 0 \/ y mod 400 = 0).
Proof.
  unfold isLeap.
  destruct (Z.eqb_spec (y mod 4) 0), (Z.eqb_spec (y mod 100) 0),
    (Z.eqb_spec (y mod 400) 0); cbn [negb]; split; intros; try lia;
    try discriminate; reflexivity.
Qed.

Lemma DayFromYear_step y : DayFromYear (y + 1) = DayFromYear y + DaysInYear y.
Proof.
  unfold DaysInYear.
  pose proof (isLeap_spec y) as L.
  destruct (isLeap y).
  - destruct L as [L _]. specialize (L eq_refl). unfold DayFromYear. lia.
  - assert (N : ~ (y mod 4 = 0 /\ (y mod 100 <> 0 \/ y mod 400 = 0))).
    { intros K. apply L in K. discriminate. }
    unfold DayFromYear. lia.
Qed.

Lemma YearFromDay_spec d :
  DayFromYear (YearFromDay d) <= d < DayFromYear (YearFromDay d + 1).
Proof.
  unfold YearFromDay.
  set (y := 1970 + 400 * d / 146097).
  destruct (Z.leb_spec (DayFromYear (y + 1)) d).
  - split; [assumption|]. unfold DayFromYear in *. subst y. lia.
  - destruct (Z.leb_spec (DayFromYear y) d).
    + lia.
    + replace (y - 1 + 1) with y by lia. split; [|assumption].
      unfold DayFromYear in *. subst y. lia.
Qed.

Lemma DayFromYear_lt a b : a < b -> DayFromYear a < DayFromYear b.
Proof. unfold DayFromYear. lia. Qed.

Lemma YearFromDay_unique d y :
  DayFromYear y <= d < DayFromYear (y + 1) -> YearFromDay d = y.
Proof.
  intros H. pose proof (YearFromDay_spec d) as S.
  destruct (Z.lt_trichotomy (YearFromDay d) y) as [L | [E | G]];
    [exfalso | assumption | exfalso].
  - assert (DayFromYear (YearFromDay d + 1) <= DayFromYear y).
    { destruct (Z.eq_dec (YearFromDay d + 1) y) as [->|]; [lia|].
      apply Z.lt_le_incl, DayFromYear_lt. lia. }
    lia.
  - assert (DayFromYear (y + 1) <= DayFromYear (YearFromDay d)).
    { destruct (Z.eq_dec (y + 1) (YearFromDay d)) as [->|]; [lia|].
      apply Z.lt_le_incl, DayFromYear_lt. lia. }
    lia.
Qed.

Lemma DayWithinYear_range t :
  0 <= DayWithinYear t < DaysInYear (YearFromTime t).
Proof.
  unfold DayWithinYear, YearFromTime.
  pose proof (YearFromDay_spec (Day t)) as S.
  rewrite DayFromYear_step in S. lia.
Qed.

Lemma monthStart_DaysInYear y : monthStart (isLeap y) 12 = DaysInYear y.
Proof. unfold DaysInYear. destruct (isLeap y); reflexivity. Qed.

(** The month found for a day of the year brackets that day. *)
Lemma MonthFromDayInYear_spec leap d :
  0 <= d < monthStart leap 12 ->
  let m := MonthFromDayInYear leap d in
  0 <= m <= 11 /\ monthStart leap m <= d < monthStart leap (m + 1).
Proof.
  intros H m. subst m. unfold MonthFromDayInYear.
  destruct leap; cbn in H |- *;
    repeat match goal with
           | |- context [?a <? ?b] => destruct (Z.ltb_spec a b)
           end;
    cbn; lia.
Qed.

Lemma MonthFromTime_range t : 0 <= MonthFromTime t <= 11.
Proof.
  unfold MonthFromTime.
  apply MonthFromDayInYear_spec.
  rewrite monthStart_DaysInYear. apply DayWithinYear_range.
Qed.

Lemma monthStart_width leap m :
  0 <= m <= 11 -> 28 <= monthStart leap (m + 1) - monthStart leap m <= 31.
Proof.
  intros H.
  assert (C : m = 0 \/ m = 1 \/ m = 2 \/ m = 3 \/ m = 4 \/ m = 5 \/ m = 6
              \/ m = 7 \/ m = 8 \/ m = 9 \/ m = 10 \/ m = 11) by lia.
  destruct leap;
    repeat (destruct C as [-> | C]; [cbn; lia|]); subst m; cbn; lia.
Qed.

Lemma DateFromTime_range t : 1 <= DateFromTime t <= 31.
Proof.
  unfold DateFromTime, MonthFromTime.
  pose proof (DayWithinYear_range t) as R.
  rewrite <- monthStart_DaysInYear in R.
  destruct (MonthFromDayInYear_spec _ _ R) as [M B].
  pose proof (monthStart_width (isLeap (YearFromTime t)) _ M).
  lia.
Qed.

(** [MakeDay] undoes the decomposition of a time value into year, month
    and date, and counts further days from there. *)
Lemma MakeDay_of_time t k :
  MakeDay (YearFromTime t) (MonthFromTime t) (DateFromTime t + k) = Day t + k.
Proof.
  pose proof (MonthFromTime_range t) as M.
  unfold MakeDay.
  rewrite (Z.div_small (MonthFromTime t) 12), (Z.mod_small (MonthFromTime t) 12)
    by lia.
  rewrite Z.add_0_r. unfold DateFromTime, DayWithinYear. lia.
Qed.

(** Year, month and date are functions of the day number alone. *)
Lemma calendar_of_Day t u :
  Day t = Day u ->
  YearFromTime t = YearFromTime u /\ MonthFromTime t = MonthFromTime u
  /\ DateFromTime t = DateFromTime u.
Proof.
  intros E.
  assert (Y : YearFromTime t = YearFromTime u) by (unfold YearFromTime; congruence).
  assert (W : DayWithinYear t = DayWithinYear u) by (unfold DayWithinYear; congruence).
  assert (M : MonthFromTime t = MonthFromTime u) by (unfold MonthFromTime; congruence).
  repeat split; try assumption. unfold DateFromTime. congruence.
Qed.

Lemma Day_MakeDate d tm : 0 <= tm < msPerDay -> Day (MakeDate d tm) = d.
Proof. unfold Day, MakeDate, msPerDay. lia. Qed.

Lemma MakeDate_Day t : MakeDate (Day t) (TimeWithinDay t) = t.
Proof. unfold Day, MakeDate, TimeWithinDay, msPerDay. lia. Qed.

Lemma TimeClip_in t : Z.abs t <= maxTime -> TimeClip t = Int t.
Proof. unfold TimeClip. intros H. destruct (Z.leb_spec (Z.abs t) maxTime); [reflexivity | lia]. Qed.

Lemma TimeClip_out t : maxTime < Z.abs t -> TimeClip t = NaN.
Proof. unfold TimeClip. intros H. destruct (Z.leb_spec (Z.abs t) maxTime); [lia | reflexivity]. Qed.

(** ** Decimal strings *)

Lemma code_range c : 0 <= Str.code c < 256.
Proof.
  unfold Str.code. pose proof (N_ascii_bounded c). lia.
Qed.

Lemma code_digitChar d : 0 <= d <= 9 -> Str.code (Str.digitChar d) = 48 + d.
Proof.
  intros H. unfold Str.code, Str.digitChar.
  rewrite N_ascii_embedding by lia. lia.
Qed.

Lemma isDigit_digitChar d : 0 <= d <= 9 -> Str.isDigit (Str.digitChar d) = true.
Proof.
  intros H. unfold Str.isDigit. rewrite code_digitChar by assumption.
  apply andb_true_intro. split; apply Z.leb_le; lia.
Qed.

Lemma isDigit_code c : Str.isDigit c = true -> 48 <= Str.code c <= 57.
Proof.
  unfold Str.isDigit. intros H. apply andb_prop in H as [A B].
  apply Z.leb_le in A, B. lia.
Qed.

Lemma digit_not_white c : Str.isDigit c = true -> Str.isWhite c = false.
Proof.
  intros H. apply isDigit_code in H. unfold Str.isWhite.
  destruct (Z.leb_spec 9 (Str.code c)), (Z.leb_spec (Str.code c) 13),
    (Z.eqb_spec (Str.code c) 32), (Z.eqb_spec (Str.code c) 160);
    cbn; try reflexivity; lia.
Qed.

Lemma digit_not_dash c : Str.isDigit c = true -> Ascii.eqb c "-" = false.
Proof.
  intros H. apply isDigit_code in H.
  destruct (Ascii.eqb_spec c "-"); [subst c; cbn in H; lia | reflexivity].
Qed.

Lemma allDigits_app s t :
  Str.allDigits (s ++ t) = Str.allDigits s && Str.allDigits t.
Proof.
  induction s as [|c s IH]; cbn; [reflexivity|].
  rewrite IH. apply andb_assoc.
Qed.

Lemma valueOfDigits_app a s t :
  Str.valueOfDigits a (s ++ t) = Str.valueOfDigits (Str.valueOfDigits a s) t.
Proof.
  revert a. induction s as [|c s IH]; intros a; cbn; [reflexivity | apply IH].
Qed.

Lemma takeDigits_all s : Str.allDigits s = true -> Str.takeDigits s = s.
Proof.
  induction s as [|c s IH]; cbn; [reflexivity|].
  intros H. apply andb_prop in H as [A B]. rewrite A, (IH B). reflexivity.
Qed.

(** On a string that starts with a digit [parseInt] reads the digits at
    its start. *)
Lemma parseInt10_startsDigit c r :
  Str.isDigit c = true ->
  Str.parseInt10 (String c r)
  = Int (Str.valueOfDigits 0 (Str.takeDigits (String c r))).
Proof.
  intros A.
  unfold Str.parseInt10. cbn [Str.trimStart]. rewrite (digit_not_white _ A).
  assert (S : match String c r with
              | String "-"%char r0 => (-1, r0)
              | String "+"%char r0 => (1, r0)
              | _ => (1, String c r)
              end = (1, String c r)).
  { apply isDigit_code in A.
    destruct c as [[] [] [] [] [] [] [] []]; cbn in A; try lia; reflexivity. }
  rewrite S. cbn [Str.takeDigits]. rewrite A.
  f_equal. lia.
Qed.

(** On a non-empty string of digits [parseInt] reads the whole string. *)
Lemma parseInt10_digits s :
  Str.allDigits s = true -> s <> "" ->
  Str.parseInt10 s = Int (Str.valueOfDigits 0 s).
Proof.
  destruct s as [|c r]; [congruence|]. intros H _.
  pose proof H as H'. cbn in H'. apply andb_prop in H' as [A B].
  rewrite (parseInt10_startsDigit _ _ A), (takeDigits_all _ H). reflexivity.
Qed.

Lemma takeDigits_app ds rest :
  Str.allDigits ds = true ->
  Str.takeDigits (ds ++ rest) = ds ++ Str.takeDigits rest.
Proof.
  induction ds as [|c ds IH]; cbn; [reflexivity|].
  intros H. apply andb_prop in H as [A B]. rewrite A, (IH B). reflexivity.
Qed.

Lemma append_empty_r s : s ++ "" = s.
Proof. induction s as [|c s IH]; cbn; [reflexivity | rewrite IH; reflexivity]. Qed.

Lemma parseInt10_decimalPrefix c n :
  decimalPrefix c n -> Str.parseInt10 c = Int n.
Proof.
  intros (ds & rest & -> & N & A & R & V).
  destruct ds as [|d ds]; [congruence|].
  pose proof A as A'. cbn in A'. apply andb_prop in A' as [D _].
  change (String d ds ++ rest) with (String d (ds ++ rest)).
  rewrite (parseInt10_startsDigit _ _ D).
  change (String d (ds ++ rest)) with (String d ds ++ rest).
  rewrite (takeDigits_app _ _ A), R, append_empty_r, V. reflexivity.
Qed.

Lemma decimal_allDigits fuel n : 0 <= n -> Str.allDigits (Str.decimal fuel n) = true.
Proof.
  revert n. induction fuel as [|f IH]; intros n H; cbn [Str.decimal]; [reflexivity|].
  rewrite allDigits_app. cbn [Str.allDigits].
  rewrite isDigit_digitChar by lia.
  destruct (n <? 10); [reflexivity|]. rewrite IH by lia. reflexivity.
Qed.

Lemma decimal_nonempty fuel n : Str.decimal (S fuel) n <> "".
Proof.
  cbn [Str.decimal]. destruct (if n <? 10 then _ else _); cbn; discriminate.
Qed.

Lemma decimal_value fuel n :
  0 <= n < 2 ^ Z.of_nat fuel -> Str.valueOfDigits 0 (Str.decimal fuel n) = n.
Proof.
  revert n. induction fuel as [|f IH]; intros n H.
  - cbn in *. lia.
  - rewrite Nat2Z.inj_succ, Z.pow_succ_r in H by lia.
    cbn [Str.decimal]. rewrite valueOfDigits_app. cbn [Str.valueOfDigits].
    rewrite code_digitChar by lia.
    destruct (Z.ltb_spec n 10).
    + cbn [Str.valueOfDigits]. lia.
    + rewrite IH by lia. lia.
Qed.

Lemma ofNat_value n : 0 <= n -> Str.valueOfDigits 0 (Str.ofNat n) = n.
Proof.
  intros H. apply decimal_value. split; [assumption|].
  rewrite Nat2Z.inj_succ, Z2Nat.id by apply Z.log2_nonneg.
  destruct (Z.eq_dec n 0) as [->|]; [cbn; lia|].
  apply Z.log2_spec. lia.
Qed.

Lemma ofNat_allDigits n : 0 <= n -> Str.allDigits (Str.ofNat n) = true.
Proof. apply decimal_allDigits. Qed.

Lemma ofNat_nonempty n : Str.ofNat n <> "".
Proof. apply decimal_nonempty. Qed.

(** [parseInt(String(n), 10)] is [n] for a non-negative integer. *)
Lemma parseInt10_ofNat n : 0 <= n -> Str.parseInt10 (Str.ofNat n) = Int n.
Proof.
  intros H. rewrite parseInt10_digits.
  - rewrite ofNat_value by assumption. reflexivity.
  - apply ofNat_allDigits; assumption.
  - apply ofNat_nonempty.
Qed.

Lemma repeatChar_zero_digits k : Str.allDigits (Str.repeatChar k "0") = true.
Proof. induction k; cbn; [reflexivity | assumption]. Qed.

Lemma valueOfDigits_zeros k s :
  Str.valueOfDigits 0 (Str.repeatChar k "0" ++ s) = Str.valueOfDigits 0 s.
Proof. induction k; cbn; [reflexivity | assumption]. Qed.

(** Padding with zeros does not change what [parseInt] reads. *)
Lemma parseInt10_padStart k n :
  0 <= n -> Str.parseInt10 (Str.padStart k "0" (Str.ofNat n)) = Int n.
Proof.
  intros H. unfold Str.padStart. rewrite parseInt10_digits.
  - rewrite valueOfDigits_zeros, ofNat_value by assumption. reflexivity.
  - rewrite allDigits_app, repeatChar_zero_digits, ofNat_allDigits by assumption.
    reflexivity.
  - intros E. destruct (Str.repeatChar _ _); [|discriminate].
    exact (ofNat_nonempty n E).
Qed.

Lemma padStart_allDigits k n :
  0 <= n -> Str.allDigits (Str.padStart k "0" (Str.ofNat n)) = true.
Proof.
  intros H. unfold Str.padStart.
  rewrite allDigits_app, repeatChar_zero_digits, ofNat_allDigits by assumption.
  reflexivity.
Qed.

Lemma split_nonempty sep s : Str.split sep s <> [].
Proof.
  destruct s as [|c r]; cbn; [discriminate|].
  destruct (Ascii.eqb c sep); [discriminate|].
  destruct (Str.split sep r); discriminate.
Qed.

Lemma split_digits s : Str.allDigits s = true -> Str.split "-" s = [s].
Proof.
  induction s as [|c s IH]; cbn; [reflexivity|].
  intros H. apply andb_prop in H as [A B].
  rewrite (digit_not_dash _ A), (IH B). reflexivity.
Qed.

Lemma split_digits_dash s t :
  Str.allDigits s = true ->
  Str.split "-" (s ++ String "-" t) = s :: Str.split "-" t.
Proof.
  induction s as [|c s IH]; cbn; [reflexivity|].
  intros H. apply andb_prop in H as [A B].
  rewrite (digit_not_dash _ A), (IH B). reflexivity.
Qed.

(** ** The codec *)

Lemma DayFromYear_le a b : a <= b -> DayFromYear a <= DayFromYear b.
Proof.
  intros H. destruct (Z.eq_dec a b) as [->|]; [lia|].
  apply Z.lt_le_incl, DayFromYear_lt. lia.
Qed.

Lemma formatDateLocal_valid tza t :
  0 <= YearFromTime (LocalTime tza t) ->
  formatDateLocal tza (mkDate (Int t)) =
  Str.ofNat (YearFromTime (LocalTime tza t)) ++ "-"
  ++ Str.padStart 2 "0" (Str.ofNat (MonthFromTime (LocalTime tza t) + 1)) ++ "-"
  ++ Str.padStart 2 "0" (Str.ofNat (DateFromTime (LocalTime tza t))).
Proof.
  intros Y.
  pose proof (MonthFromTime_range (LocalTime tza t)) as M.
  pose proof (DateFromTime_range (LocalTime tza t)) as D.
  unfold formatDateLocal, getFullYear, getMonth, getDate. cbn [getTime Num.add Str.ofNum].
  destruct (Z.ltb_spec (YearFromTime (LocalTime tza t)) 0); [lia|].
  destruct (Z.ltb_spec (MonthFromTime (LocalTime tza t) + 1) 0); [lia|].
  destruct (Z.ltb_spec (DateFromTime (LocalTime tza t)) 0); [lia|].
  reflexivity.
Qed.

(** The three Numbers that [parseLocalDate] reads back from a formatted
    date. *)
Lemma parts_of_formatted y m d :
  0 <= y -> 0 <= m -> 0 <= d ->
  map Str.parseInt10
    (Str.split "-"
       (Str.ofNat y ++ "-" ++ Str.padStart 2 "0" (Str.ofNat m) ++ "-"
        ++ Str.padStart 2 "0" (Str.ofNat d)))
  = [Int y; Int m; Int d].
Proof.
  intros Y M D.
  change ("-" ++ ?x) with (String "-" x).
  rewrite split_digits_dash by (apply ofNat_allDigits; assumption).
  change (String "-"%char ?x) with ("-" ++ x) at 1.
  cbn [append].
  rewrite split_digits_dash by (apply padStart_allDigits; assumption).
  rewrite split_digits by (apply padStart_allDigits; assumption).
  cbn [map].
  rewrite parseInt10_ofNat, !parseInt10_padStart by assumption.
  reflexivity.
Qed.

Lemma newDate_of_calendar tza t :
  zoneInRange tza -> validTime t -> 100 <= YearFromTime (LocalTime tza t) ->
  newDate tza (Int (YearFromTime (LocalTime tza t)))
              (Int (MonthFromTime (LocalTime tza t)))
              (Int (DateFromTime (LocalTime tza t)))
  = mkDate (Int (UTC tza (MakeDate (Day (LocalTime tza t)) 0))).
Proof.
  intros Z V Y. unfold newDate, MakeFullYear.
  destruct (Z.leb_spec (YearFromTime (LocalTime tza t)) 99); [lia|].
  rewrite andb_false_r.
  pose proof (MakeDay_of_time (LocalTime tza t) 0) as E.
  rewrite !Z.add_0_r in E. rewrite E.
  change (MakeTime 0 0 0 0) with 0.
  rewrite TimeClip_in; [reflexivity|].
  assert (L : DayFromYear 100 <= Day (LocalTime tza t)).
  { pose proof (YearFromDay_spec (Day (LocalTime tza t))) as S.
    pose proof (DayFromYear_le 100 _ Y) as K.
    unfold YearFromTime in K. lia. }
  change (DayFromYear 100) with (-683003) in L.
  unfold zoneInRange, validTime, UTC, MakeDate, LocalTime, Day, msPerDay, maxTime in *.
  lia.
Qed.

(** Decoding an encoded date gives the local midnight of its day. *)
Lemma parseLocalDate_formatDateLocal tza t :
  zoneInRange tza -> validTime t -> 100 <= YearFromTime (LocalTime tza t) ->
  parseLocalDate tza (formatDateLocal tza (mkDate (Int t)))
  = Some (mkDate (Int (UTC tza (MakeDate (Day (LocalTime tza t)) 0)))).
Proof.
  intros Z V Y.
  pose proof (MonthFromTime_range (LocalTime tza t)) as M.
  pose proof (DateFromTime_range (LocalTime tza t)) as D.
  rewrite formatDateLocal_valid by lia.
  unfold parseLocalDate. rewrite parts_of_formatted by lia.
  cbn [nth_error truthyElt Num.truthy toNumber Num.sub].
  destruct (Z.eqb_spec (YearFromTime (LocalTime tza t)) 0); [lia|].
  destruct (Z.eqb_spec (MonthFromTime (LocalTime tza t) + 1) 0); [lia|].
  destruct (Z.eqb_spec (DateFromTime (LocalTime tza t)) 0); [lia|].
  cbn [negb orb].
  replace (MonthFromTime (LocalTime tza t) + 1 - 1)
    with (MonthFromTime (LocalTime tza t)) by lia.
  rewrite newDate_of_calendar by assumption. reflexivity.
Qed.

Lemma Day_local_midnight tza t :
  Day (LocalTime tza (UTC tza (MakeDate (Day (LocalTime tza t)) 0)))
  = Day (LocalTime tza t).
Proof.
  unfold LocalTime at 1. unfold UTC.
  replace (MakeDate (Day (LocalTime tza t)) 0 - tza + tza)
    with (MakeDate (Day (LocalTime tza t)) 0) by lia.
  apply Day_MakeDate. unfold msPerDay. lia.
Qed.

Section Codec.

Variable tza : Z.
Hypothesis tza_ok : zoneInRange tza.

(** C2, as amended: for every valid date whose local year is at least
    100, whatever its month, day and time of day, decoding its encoding
    gives a date with the same year, month and day. *)
Theorem roundtrip_from_year_100 (t : Z) :
  validTime t ->
  100 <= YearFromTime (LocalTime tza t) ->
  roundTrips tza (mkDate (Int t)).
Proof.
  intros V Y. unfold roundTrips.
  rewrite parseLocalDate_formatDateLocal by assumption.
  eexists. split; [reflexivity|].
  destruct (calendar_of_Day _ _ (eq_sym (Day_local_midnight tza t)))
    as (Ey & Em & Ed).
  unfold sameCalendarDay, getFullYear, getMonth, getDate. cbn [getTime].
  rewrite Ey, Em, Ed. repeat split.
Qed.

End Codec.

(** C2, witness: noon of 15 June 2025 in Oslo. *)
Lemma roundtrip_from_year_100_witness :
  roundTrips cet (mkDate (Int 1749981600000)).
Proof.
  apply (roundtrip_from_year_100 cet).
  - unfold zoneInRange, cet, msPerDay. lia.
  - unfold validTime, maxTime. lia.
  - vm_compute. discriminate.
Defined.

(** C2, as stated, fails: 1 January of the year 50 is encoded as
    ["50-01-01"], which decodes to 1 January 1950. *)
Lemma roundtrip_fails_before_year_100 :
  let d := mkDate (Int (-60589299600000)) in
  getFullYear cet d = Int 50
  /\ formatDateLocal cet d = "50-01-01"
  /\ option_map (getFullYear cet) (parseLocalDate cet (formatDateLocal cet d))
     = Some (Int 1950)
  /\ ~ roundTrips cet d.
Proof.
  cbv zeta.
  assert (Y : getFullYear cet (mkDate (Int (-60589299600000))) = Int 50)
    by (vm_compute; reflexivity).
  assert (F : formatDateLocal cet (mkDate (Int (-60589299600000))) = "50-01-01")
    by (vm_compute; reflexivity).
  assert (P : parseLocalDate cet "50-01-01" = Some (mkDate (Int (-631155600000))))
    by (vm_compute; reflexivity).
  assert (Y' : getFullYear cet (mkDate (Int (-631155600000))) = Int 1950)
    by (vm_compute; reflexivity).
  split; [exact Y|]. split; [exact F|]. rewrite F, P. cbn [option_map].
  split; [rewrite Y'; reflexivity|].
  unfold roundTrips, sameCalendarDay. rewrite F, P, Y.
  intros (d' & E & S & _). injection E as <-. rewrite Y' in S. discriminate.
Qed.

(** ** The generator *)

Lemma rem2_odd n : Z.odd n = true -> (Z.rem n 2 =? 0) = false.
Proof.
  intros H. apply Z.odd_spec in H as [k ->]. apply Z.eqb_neq. lia.
Qed.

Lemma rem2_even n : Z.even n = true -> (Z.rem n 2 =? 0) = true.
Proof.
  intros H. apply Z.even_spec in H as [k ->]. apply Z.eqb_eq. lia.
Qed.

Lemma loopIndices_nonneg count i : In i (loopIndices count) -> 0 <= i.
Proof.
  destruct count as [|c]; cbn; [tauto|].
  intros H. apply in_map_iff in H as (k & <- & _). lia.
Qed.

Section Generator.

Variable tza : Z.

(** C4: on an odd index the generator returns the empty sequence, for
    every range record and every clock reading. *)
Theorem odd_index_no_events (now : Z) (range : Range) (index : Z) :
  Z.odd index = true ->
  generateStevnerForRange tza now range index = [].
Proof.
  intros H. unfold generateStevnerForRange.
  rewrite (rem2_odd _ H). reflexivity.
Qed.

(** C3, as amended: with an empty identifier the first character code is
    NaN, the count is NaN, and the generator returns the empty sequence
    on every index. *)
Theorem empty_id_no_events (now : Z) (stv : option (list Event)) (index : Z) :
  Str.charCodeAt0 "" = NaN
  /\ generateStevnerForRange tza now (mkRange "" stv) index = [].
Proof.
  split; [reflexivity|].
  unfold generateStevnerForRange. destruct (negb _); reflexivity.
Qed.

(** C5: the range "ABC" at index 0 has first character code 65, hence
    two events, at local indices 0 and 1, named by the labels at
    positions 0 and 1 and identified as "ABC-0" and "ABC-1". *)
Theorem scenario_ABC (now : Z) (stv : option (list Event)) :
  let evs := generateStevnerForRange tza now (mkRange "ABC" stv) 0 in
  Str.charCodeAt0 "ABC" = Int 65
  /\ Num.add (Int 1) (Num.rem (Num.add (Str.charCodeAt0 "ABC") (Int 0)) (Int 2))
     = Int 2
  /\ List.length evs = 2%nat
  /\ evs = map (stevne tza (mkRange "ABC" stv) 0 (mkDate (Int now))) [0; 1]
  /\ map name evs = [nth (Z.to_nat (0 mod 4)) baseNames "";
                     nth (Z.to_nat (1 mod 4)) baseNames ""]
  /\ map id evs = ["ABC-0"; "ABC-1"].
Proof.
  cbv zeta. repeat split.
Qed.

(** C6: every event generated on an index that is an array position has
    a capacity among 40, 60, 80 and 100 and an attendee count between 0
    and that capacity. *)
Theorem attendees_within_capacity
    (now : Z) (range : Range) (index : Z) (ev : Event) :
  0 <= index ->
  In ev (generateStevnerForRange tza now range index) ->
  exists a m,
    attendees ev = Int a /\ maxAttendees ev = Int m
    /\ 0 <= a <= m
    /\ (m = 40 \/ m = 60 \/ m = 80 \/ m = 100).
Proof.
  intros I H. unfold generateStevnerForRange in H.
  destruct (negb _); [contradiction|].
  apply in_map_iff in H as (i & <- & Hi).
  apply loopIndices_nonneg in Hi.
  unfold stevne. cbn [attendees maxAttendees].
  set (m := 40 + Z.rem (index + i) 4 * 20).
  assert (M : m = 40 \/ m = 60 \/ m = 80 \/ m = 100) by (subst m; lia).
  destruct (negb (Z.rem (index + i) 3 =? 0)); cbn [Num.rem Num.add Num.min].
  - destruct (Z.eqb_spec (m - 10) 0); [lia|]. cbn [Num.add Num.min].
    eexists _, m. repeat split; try assumption; lia.
  - destruct (Z.eqb_spec m 0); [lia|]. cbn [Num.add Num.min].
    eexists _, m. repeat split; try assumption; lia.
Qed.

End Generator.

(** C4, witness: index 1. *)
Lemma odd_index_no_events_witness :
  generateStevnerForRange cet 1762153200000 (mkRange "ABC" None) 1 = [].
Proof.
  apply (odd_index_no_events cet 1762153200000 (mkRange "ABC" None) 1).
  reflexivity.
Defined.

(** C3, as stated, fails: with the empty identifier at index 0 the count
    formula with code 0 asks for one event, and the generator returns
    none. *)
Lemma empty_id_not_one_event :
  let evs := generateStevnerForRange cet 1762153200000 (mkRange "" None) 0 in
  1 + (0 + 0) mod 2 = 1
  /\ List.length evs = 0%nat
  /\ Z.of_nat (List.length evs) <> 1 + (0 + 0) mod 2.
Proof. cbv zeta. repeat split. discriminate. Qed.

(** C6, witness: the first event of the range "ABC" at index 0. *)
Lemma attendees_within_capacity_witness :
  exists a m,
    attendees (stevne cet (mkRange "ABC" None) 0 (mkDate (Int 1762153200000)) 0)
    = Int a
    /\ maxAttendees
         (stevne cet (mkRange "ABC" None) 0 (mkDate (Int 1762153200000)) 0)
       = Int m
    /\ 0 <= a <= m
    /\ (m = 40 \/ m = 60 \/ m = 80 \/ m = 100).
Proof.
  apply (attendees_within_capacity cet 1762153200000 (mkRange "ABC" None) 0).
  - lia.
  - left. reflexivity.
Defined.

(** ** The clock of the generator *)

Lemma Day_shift t k : Day (t + k * msPerDay) = Day t + k.
Proof. unfold Day, msPerDay. lia. Qed.

(** [d.setDate(d.getDate() + off)] moves the time value by [off] days. *)
Lemma setDate_offset tza now off :
  setDate tza (mkDate (Int now))
    (Num.add (getDate tza (mkDate (Int now))) (Int off))
  = mkDate (TimeClip (now + off * msPerDay)).
Proof.
  unfold setDate, getDate. cbn [getTime Num.add].
  rewrite MakeDay_of_time. f_equal. f_equal.
  pose proof (MakeDate_Day (LocalTime tza now)) as E.
  unfold UTC, MakeDate, LocalTime in *. lia.
Qed.

(** The encoding reads only the local day number of a date. *)
Lemma formatDateLocal_of_Day tza t u :
  Day (LocalTime tza t) = Day (LocalTime tza u) ->
  formatDateLocal tza (mkDate (Int t)) = formatDateLocal tza (mkDate (Int u)).
Proof.
  intros E. destruct (calendar_of_Day _ _ E) as (Ey & Em & Ed).
  unfold formatDateLocal, getFullYear, getMonth, getDate. cbn [getTime].
  rewrite Ey, Em, Ed. reflexivity.
Qed.

Lemma dayOffset_range n : -116 <= 3 + Z.rem n 120 <= 122.
Proof. lia. Qed.

Section Clock.

Variable tza : Z.

Lemma stevne_withoutDate range index t1 t2 i :
  withoutDate (stevne tza range index t1 i)
  = withoutDate (stevne tza range index t2 i).
Proof. reflexivity. Qed.

Lemma stevne_same_day range index now1 now2 i :
  clockInRange now1 -> clockInRange now2 ->
  Day (LocalTime tza now1) = Day (LocalTime tza now2) ->
  stevne tza range index (mkDate (Int now1)) i
  = stevne tza range index (mkDate (Int now2)) i.
Proof.
  intros C1 C2 E. unfold stevne. f_equal.
  rewrite !setDate_offset.
  pose proof (dayOffset_range (index * 5 + i * 17)) as R.
  set (off := 3 + Z.rem (index * 5 + i * 17) 120) in *.
  rewrite !TimeClip_in
    by (unfold clockInRange, maxTime, msPerDay in *; lia).
  apply formatDateLocal_of_Day.
  unfold LocalTime in *.
  replace (now1 + off * msPerDay + tza) with (now1 + tza + off * msPerDay) by lia.
  replace (now2 + off * msPerDay + tza) with (now2 + tza + off * msPerDay) by lia.
  rewrite !Day_shift. lia.
Qed.

(** C9, as amended: for the same range and index, the count, the ids, the
    names, the rsvp flags, the attendee numbers and the capacities are
    the same whatever the clock reads; the whole output, dates included,
    is the same for two clock readings on the same local calendar day. *)
Theorem generator_deterministic_per_day
    (now1 now2 : Z) (range : Range) (index : Z) :
  map withoutDate (generateStevnerForRange tza now1 range index)
  = map withoutDate (generateStevnerForRange tza now2 range index)
  /\ (clockInRange now1 -> clockInRange now2 ->
      Day (LocalTime tza now1) = Day (LocalTime tza now2) ->
      generateStevnerForRange tza now1 range index
      = generateStevnerForRange tza now2 range index).
Proof.
  unfold generateStevnerForRange.
  destruct (negb (Z.rem index 2 =? 0)); [split; reflexivity|].
  split.
  - rewrite !map_map. apply map_ext. intros i. apply stevne_withoutDate.
  - intros C1 C2 E. apply map_ext. intros i.
    apply stevne_same_day; assumption.
Qed.

End Clock.

(** C9, witness: 07:00 and 15:20 UTC of 3 November 2025, in Oslo. *)
Lemma generator_deterministic_per_day_witness :
  generateStevnerForRange cet 1762153200000 (mkRange "ABC" None) 0
  = generateStevnerForRange cet 1762183200000 (mkRange "ABC" None) 0.
Proof.
  apply (proj2 (generator_deterministic_per_day
                  cet 1762153200000 1762183200000 (mkRange "ABC" None) 0)).
  - unfold clockInRange, maxTime, msPerDay. lia.
  - unfold clockInRange, maxTime, msPerDay. lia.
  - vm_compute. reflexivity.
Defined.

(** C9, as stated, fails: the same range and index on two consecutive days
    give different dates. *)
Lemma generator_differs_next_day :
  map date (generateStevnerForRange cet 1762153200000 (mkRange "ABC" None) 0)
  = ["2025-11-06"; "2025-11-23"]
  /\ map date (generateStevnerForRange cet (1762153200000 + msPerDay)
                 (mkRange "ABC" None) 0)
     = ["2025-11-07"; "2025-11-24"]
  /\ generateStevnerForRange cet 1762153200000 (mkRange "ABC" None) 0
     <> generateStevnerForRange cet (1762153200000 + msPerDay)
          (mkRange "ABC" None) 0.
Proof.
  assert (A : map date (generateStevnerForRange cet 1762153200000
                          (mkRange "ABC" None) 0)
              = ["2025-11-06"; "2025-11-23"]) by (vm_compute; reflexivity).
  assert (B : map date (generateStevnerForRange cet (1762153200000 + msPerDay)
                          (mkRange "ABC" None) 0)
              = ["2025-11-07"; "2025-11-24"]) by (vm_compute; reflexivity).
  split; [exact A|]. split; [exact B|].
  intros E. rewrite E, B in A. clear E. discriminate A.
Qed.

(** ** The filter *)

Lemma truthy_nonempty s : s <> "" -> Str.truthy s = true.
Proof. destruct s; [congruence | reflexivity]. Qed.

(** What [parseLocalDate] returns once the three Numbers are known. *)
Lemma parseLocalDate_parts tza s y m d tl :
  map Str.parseInt10 (Str.split "-" s) = Int y :: Int m :: Int d :: tl ->
  y <> 0 -> m <> 0 -> d <> 0 ->
  parseLocalDate tza s = Some (newDate tza (Int y) (Int (m - 1)) (Int d)).
Proof.
  intros E Y M D. unfold parseLocalDate. rewrite E.
  cbn [nth_error truthyElt Num.truthy toNumber Num.sub].
  destruct (Z.eqb_spec y 0), (Z.eqb_spec m 0), (Z.eqb_spec d 0);
    try contradiction.
  reflexivity.
Qed.

(** The same, with the local midnight [L] of the day that was read. *)
Lemma parseLocalDate_local tza s y m d tl L :
  map Str.parseInt10 (Str.split "-" s) = Int y :: Int m :: Int d :: tl ->
  y <> 0 -> m <> 0 -> d <> 0 ->
  MakeDate (MakeDay (MakeFullYear y) (m - 1) d) 0 = L ->
  Z.abs (L - tza) <= maxTime ->
  parseLocalDate tza s = Some (mkDate (Int (L - tza))).
Proof.
  intros E Y M D EL B.
  rewrite (parseLocalDate_parts tza s y m d tl E Y M D).
  unfold newDate. change (MakeTime 0 0 0 0) with 0. rewrite EL.
  unfold UTC. rewrite TimeClip_in by assumption. reflexivity.
Qed.

(** With both bounds set and the three strings decoded to local midnights,
    the filter accepts exactly the days from the start day to the end of
    the end day. *)
Lemma isEventWithinRange_local tza st en ds ts te td :
  st <> "" -> en <> "" -> ds <> "" ->
  parseLocalDate tza ds = Some (mkDate (Int (td - tza))) ->
  parseLocalDate tza st = Some (mkDate (Int (ts - tza))) ->
  parseLocalDate tza en = Some (mkDate (Int (te - tza))) ->
  Z.abs (MakeDate (Day te) (MakeTime 23 59 59 999) - tza) <= maxTime ->
  isEventWithinRange tza st en ds
  = Ret (negb (td <? ts)
         && negb (MakeDate (Day te) (MakeTime 23 59 59 999) <? td)).
Proof.
  intros Hs He Hd Pd Ps Pe B. unfold isEventWithinRange.
  rewrite (truthy_nonempty _ Hs), (truthy_nonempty _ He), (truthy_nonempty _ Hd).
  rewrite Pd, Ps, Pe. cbn [negb andb bind getTime Num.isNaN primitive Num.lt].
  unfold setHours. cbn [getTime]. unfold LocalTime, UTC.
  replace (te - tza + tza) with te by lia.
  rewrite TimeClip_in by assumption. cbn [getTime Num.lt].
  replace (td - tza <? ts - tza) with (td <? ts)
    by (destruct (Z.ltb_spec td ts), (Z.ltb_spec (td - tza) (ts - tza)); lia).
  set (e := MakeDate (Day te) (MakeTime 23 59 59 999)).
  replace (e - tza <? td - tza) with (e <? td)
    by (destruct (Z.ltb_spec e td), (Z.ltb_spec (e - tza) (td - tza)); lia).
  destruct (td <? ts); cbn [negb andb bind]; [reflexivity|].
  destruct (e <? td); reflexivity.
Qed.

(** Decoding of the calendar strings of the scenarios. *)
Ltac decode_local :=
  eapply parseLocalDate_local;
  [ vm_compute; reflexivity | discriminate | discriminate | discriminate
  | vm_compute; reflexivity
  | unfold zoneInRange, maxTime, msPerDay in *; lia ].

Section Filter.

Variable tza : Z.

(** C1, on the code: with a bound set, a non-empty date string that
    [parseLocalDate] does not decode makes the filter throw a TypeError
    (it calls [getTime] on [null]); it does not return false. *)
Theorem undecodable_date_throws (startDate endDate dateStr : string) :
  Str.truthy startDate || Str.truthy endDate = true ->
  dateStr <> "" ->
  parseLocalDate tza dateStr = None ->
  isEventWithinRange tza startDate endDate dateStr = Throw TypeError.
Proof.
  intros A D P. unfold isEventWithinRange.
  rewrite (truthy_nonempty _ D), P.
  destruct (Str.truthy startDate), (Str.truthy endDate);
    try discriminate; reflexivity.
Qed.

(** C8, on the code: under an active filter a range whose event has an
    undecodable date makes [visibleRanges] throw; the list of visible
    ranges is not computed. *)
Theorem visibleRanges_throws_on_undecodable_date :
  visibleRanges tza "2025-01-01" "2025-12-31"
    [mkRange "R1" (Some [mkEvent "R1-0" "Banestevne" true (Int 10) (Int 40)
                           "not-a-date"])]
  = Throw TypeError.
Proof. reflexivity. Qed.

Hypothesis tza_ok : zoneInRange tza.

(** With start = end = "2025-06-15" the filter accepts 15 June 2025 and
    rejects the day before and the day after. *)
Lemma single_day_2025_06_15 :
  isEventWithinRange tza "2025-06-15" "2025-06-15" "2025-06-15" = Ret true
  /\ isEventWithinRange tza "2025-06-15" "2025-06-15" "2025-06-14" = Ret false
  /\ isEventWithinRange tza "2025-06-15" "2025-06-15" "2025-06-16" = Ret false.
Proof.
  assert (P15 : parseLocalDate tza "2025-06-15"
                = Some (mkDate (Int (1749945600000 - tza)))) by decode_local.
  assert (P14 : parseLocalDate tza "2025-06-14"
                = Some (mkDate (Int (1749859200000 - tza)))) by decode_local.
  assert (P16 : parseLocalDate tza "2025-06-16"
                = Some (mkDate (Int (1750032000000 - tza)))) by decode_local.
  assert (B : Z.abs (MakeDate (Day 1749945600000) (MakeTime 23 59 59 999) - tza)
              <= maxTime).
  { change (MakeDate (Day 1749945600000) (MakeTime 23 59 59 999))
      with 1750031999999.
    unfold zoneInRange, maxTime, msPerDay in *. lia. }
  repeat split.
  - rewrite (isEventWithinRange_local
               tza "2025-06-15" "2025-06-15" "2025-06-15" _ _ _
               ltac:(discriminate) ltac:(discriminate) ltac:(discriminate)
               P15 P15 P15 B).
    reflexivity.
  - rewrite (isEventWithinRange_local
               tza "2025-06-15" "2025-06-15" "2025-06-14" _ _ _
               ltac:(discriminate) ltac:(discriminate) ltac:(discriminate)
               P14 P15 P15 B).
    reflexivity.
  - rewrite (isEventWithinRange_local
               tza "2025-06-15" "2025-06-15" "2025-06-16" _ _ _
               ltac:(discriminate) ltac:(discriminate) ltac:(discriminate)
               P16 P15 P15 B).
    reflexivity.
Qed.

End Filter.

(** C1, witness: the scenario of the specification. *)
Lemma undecodable_date_throws_witness :
  isEventWithinRange cet "2025-01-01" "2025-12-31" "not-a-date"
  = Throw TypeError.
Proof.
  apply (undecodable_date_throws cet "2025-01-01" "2025-12-31" "not-a-date").
  - reflexivity.
  - discriminate.
  - reflexivity.
Defined.

(** ** What [parseLocalDate] accepts *)

Lemma truthyElt_parsed (c : option string) :
  truthyElt (option_map Str.parseInt10 c) = false <-> missingOrZero c.
Proof.
  destruct c as [x|]; cbn; [|tauto].
  destruct (Str.parseInt10 x) as [|z]; cbn.
  - split; [intros _; left; reflexivity | reflexivity].
  - destruct (Z.eqb_spec z 0) as [->|N]; cbn.
    + split; [intros _; right; reflexivity | reflexivity].
    + split; [discriminate | intros [H | H]; [discriminate | congruence]].
Qed.

Lemma parseLocalDate_None tza s :
  parseLocalDate tza s = None
  <-> exists k, (k < 3)%nat /\ missingOrZero (nth_error (Str.split "-" s) k).
Proof.
  unfold parseLocalDate. rewrite !nth_error_map.
  pose proof (truthyElt_parsed (nth_error (Str.split "-" s) 0)) as T0.
  pose proof (truthyElt_parsed (nth_error (Str.split "-" s) 1)) as T1.
  pose proof (truthyElt_parsed (nth_error (Str.split "-" s) 2)) as T2.
  destruct (truthyElt (option_map _ (nth_error _ 0))) eqn:E0;
    cbn [negb orb].
  2: { split; [intros _|reflexivity]. exists 0%nat. split; [lia | tauto]. }
  destruct (truthyElt (option_map _ (nth_error _ 1))) eqn:E1;
    cbn [negb orb].
  2: { split; [intros _|reflexivity]. exists 1%nat. split; [lia | tauto]. }
  destruct (truthyElt (option_map _ (nth_error _ 2))) eqn:E2;
    cbn [negb orb].
  2: { split; [intros _|reflexivity]. exists 2%nat. split; [lia | tauto]. }
  split; [discriminate|].
  intros (k & K & M).
  assert (C : (k = 0 \/ k = 1 \/ k = 2)%nat) by lia.
  destruct C as [-> | [-> | ->]];
    [apply T0 in M | apply T1 in M | apply T2 in M]; discriminate.
Qed.

Lemma parseLocalDate_prefixes tza s c0 c1 c2 tl y m d :
  Str.split "-" s = c0 :: c1 :: c2 :: tl ->
  decimalPrefix c0 y -> decimalPrefix c1 m -> decimalPrefix c2 d ->
  y <> 0 -> m <> 0 -> d <> 0 ->
  parseLocalDate tza s = Some (newDate tza (Int y) (Int (m - 1)) (Int d)).
Proof.
  intros E P0 P1 P2 Y M D.
  apply (parseLocalDate_parts tza s y m d (map Str.parseInt10 tl));
    try assumption.
  rewrite E. cbn [map].
  rewrite (parseInt10_decimalPrefix _ _ P0), (parseInt10_decimalPrefix _ _ P1),
    (parseInt10_decimalPrefix _ _ P2).
  reflexivity.
Qed.

Section Decode.

Variable tza : Z.
Hypothesis tza_ok : zoneInRange tza.

(** C10: [parseLocalDate] returns [null] exactly when one of the first
    three dash-separated components is missing or is read by [parseInt]
    as NaN or 0; components with a non-zero decimal prefix give a date,
    whatever follows the digits and whatever the range of the numbers;
    "2025-13-05" is 5 January 2026 and passes the filter of January
    2026. *)
Theorem parseLocalDate_lenient :
  (forall s,
      parseLocalDate tza s = None
      <-> exists k, (k < 3)%nat
                    /\ missingOrZero (nth_error (Str.split "-" s) k))
  /\ (forall s c0 c1 c2 tl y m d,
         Str.split "-" s = c0 :: c1 :: c2 :: tl ->
         decimalPrefix c0 y -> decimalPrefix c1 m -> decimalPrefix c2 d ->
         y <> 0 -> m <> 0 -> d <> 0 ->
         parseLocalDate tza s
         = Some (newDate tza (Int y) (Int (m - 1)) (Int d)))
  /\ (exists dt,
         parseLocalDate tza "2025-13-05" = Some dt
         /\ getFullYear tza dt = Int 2026
         /\ getMonth tza dt = Int 0
         /\ getDate tza dt = Int 5)
  /\ parseLocalDate tza "2025x-06y-15T10:00" = parseLocalDate tza "2025-06-15"
  /\ isEventWithinRange tza "2026-01-01" "2026-01-31" "2025-13-05" = Ret true.
Proof.
  split; [exact (parseLocalDate_None tza)|].
  split; [exact (parseLocalDate_prefixes tza)|].
  assert (P : parseLocalDate tza "2025-13-05"
              = Some (mkDate (Int (1767571200000 - tza)))) by decode_local.
  assert (Ps : parseLocalDate tza "2026-01-01"
               = Some (mkDate (Int (1767225600000 - tza)))) by decode_local.
  assert (Pe : parseLocalDate tza "2026-01-31"
               = Some (mkDate (Int (1769817600000 - tza)))) by decode_local.
  split; [|split].
  - eexists. split; [exact P|].
    unfold getFullYear, getMonth, getDate, LocalTime. cbn [getTime].
    replace (1767571200000 - tza + tza) with 1767571200000 by lia.
    repeat split.
  - assert (A : parseLocalDate tza "2025x-06y-15T10:00"
                = Some (mkDate (Int (1749945600000 - tza)))) by decode_local.
    assert (B : parseLocalDate tza "2025-06-15"
                = Some (mkDate (Int (1749945600000 - tza)))) by decode_local.
    rewrite A, B. reflexivity.
  - assert (B : Z.abs (MakeDate (Day 1769817600000) (MakeTime 23 59 59 999)
                       - tza) <= maxTime).
    { change (MakeDate (Day 1769817600000) (MakeTime 23 59 59 999))
        with 1769903999999.
      unfold zoneInRange, maxTime, msPerDay in *. lia. }
    rewrite (isEventWithinRange_local
               tza "2026-01-01" "2026-01-31" "2025-13-05" _ _ _
               ltac:(discriminate) ltac:(discriminate) ltac:(discriminate)
               P Ps Pe B).
    reflexivity.
Qed.

End Decode.

(** C10, witness: in Oslo, "2025-13-05" is accepted by the filter of
    January 2026. *)
Lemma parseLocalDate_lenient_witness :
  isEventWithinRange cet "2026-01-01" "2026-01-31" "2025-13-05" = Ret true.
Proof.
  apply (parseLocalDate_lenient cet).
  unfold zoneInRange, cet, msPerDay. lia.
Defined.

(** ** Visible ranges, where the filter returns *)

Lemma some_returns {A : Type} (f : A -> result bool) (xs : list A) (b : bool) :
  Arr.some f xs = Ret b ->
  (b = true <-> exists x, In x xs /\ f x = Ret true).
Proof.
  revert b. induction xs as [|x r IH]; intros b; cbn.
  - intros E. injection E as <-. split; [discriminate | intros (? & [] & _)].
  - destruct (f x) as [[|]|e] eqn:F; cbn; try discriminate.
    + intros E. injection E as <-.
      split; [intros _; exists x; split; [left; reflexivity | exact F] | reflexivity].
    + intros E. specialize (IH b E). rewrite IH. split.
      * intros (y & I & Fy). exists y. split; [right; exact I | exact Fy].
      * intros (y & [-> | I] & Fy); [congruence|]. exists y. split; assumption.
Qed.

Lemma filter_returns {A : Type} (f : A -> result bool) (xs ys : list A) :
  Arr.filter f xs = Ret ys ->
  forall x, In x ys <-> In x xs /\ f x = Ret true.
Proof.
  revert ys. induction xs as [|a r IH]; intros ys; cbn.
  - intros E. injection E as <-. intros x. cbn. tauto.
  - destruct (f a) as [b|e] eqn:F; cbn; try discriminate.
    destruct (Arr.filter f r) as [r'|e] eqn:R; cbn; try discriminate.
    intros E. injection E as <-. intros x.
    specialize (IH r' eq_refl x).
    destruct b; cbn; rewrite ?IH; split.
    + intros [<- | [I Fx]]; [split; [left; reflexivity | exact F] | tauto].
    + intros [[<- | I] Fx]; [left; reflexivity | right; tauto].
    + intros [I Fx]. tauto.
    + intros [[<- | I] Fx]; [congruence | tauto].
Qed.

Lemma filter_total {A : Type} (f : A -> result bool) (xs : list A) :
  (forall x, In x xs -> exists b, f x = Ret b) ->
  exists ys, Arr.filter f xs = Ret ys.
Proof.
  induction xs as [|a r IH]; intros H; cbn; [eexists; reflexivity|].
  destruct (H a (or_introl eq_refl)) as [b ->].
  destruct IH as [ys ->]; [intros x I; apply H; right; exact I|].
  cbn. eexists; reflexivity.
Qed.

Lemma some_total {A : Type} (f : A -> result bool) (xs : list A) :
  (forall x, In x xs -> exists b, f x = Ret b) ->
  exists b, Arr.some f xs = Ret b.
Proof.
  induction xs as [|a r IH]; intros H; cbn; [eexists; reflexivity|].
  destruct (H a (or_introl eq_refl)) as [b ->]. cbn.
  destruct b; [eexists; reflexivity|].
  apply IH. intros x I. apply H. right. exact I.
Qed.

Lemma filter_returns_each {A : Type} (f : A -> result bool) (xs ys : list A) :
  Arr.filter f xs = Ret ys ->
  forall x, In x xs -> exists b, f x = Ret b.
Proof.
  revert ys. induction xs as [|a r IH]; intros ys; cbn; [intros _ x []|].
  destruct (f a) as [b|e] eqn:F; cbn; try discriminate.
  destruct (Arr.filter f r) as [r'|e] eqn:R; cbn; try discriminate.
  intros _ x [<- | I]; [exists b; exact F | exact (IH r' eq_refl x I)].
Qed.

Section Visible.

Variable tza : Z.

(** Without a filter every range is visible, whatever its events. *)
Lemma visibleRanges_no_filter (ranges : list Range) :
  visibleRanges tza "" "" ranges = Ret ranges.
Proof. reflexivity. Qed.

(** When [visibleRanges] returns under an active filter, the visible
    ranges are those with an event that the filter accepts. *)
Lemma visibleRanges_returns (startDate endDate : string)
    (ranges visible : list Range) :
  Str.truthy startDate || Str.truthy endDate = true ->
  visibleRanges tza startDate endDate ranges = Ret visible ->
  forall r,
    In r visible
    <-> In r ranges
        /\ exists evs ev,
             stevner r = Some evs /\ In ev evs
             /\ isEventWithinRange tza startDate endDate (date ev) = Ret true.
Proof.
  intros A V r. unfold visibleRanges in V.
  assert (G : negb (Str.truthy startDate) && negb (Str.truthy endDate) = false)
    by (destruct (Str.truthy startDate), (Str.truthy endDate);
        try discriminate; reflexivity).
  rewrite G in V. rewrite (filter_returns _ _ _ V r).
  split; intros [I H]; (split; [exact I|]).
  - destruct (stevner r) as [evs|]; [|discriminate].
    destruct (proj1 (some_returns _ _ _ H) eq_refl) as (ev & Iev & F).
    exists evs, ev. repeat split; assumption.
  - destruct (filter_returns_each _ _ _ V r I) as [b S].
    destruct H as (evs & ev & E & Iev & F). rewrite E in S |- *.
    rewrite S. f_equal. apply (some_returns _ _ _ S).
    exists ev. split; assumption.
Qed.

(** The filter returns when the end bound and the date are empty or
    decode. *)
Lemma isEventWithinRange_total (startDate endDate dateStr : string) :
  endDate = "" \/ parseLocalDate tza endDate <> None ->
  dateStr = "" \/ parseLocalDate tza dateStr <> None ->
  exists b, isEventWithinRange tza startDate endDate dateStr = Ret b.
Proof.
  intros He Hd. unfold isEventWithinRange.
  destruct (negb (Str.truthy startDate) && negb (Str.truthy endDate));
    [eexists; reflexivity|].
  destruct Hd as [-> | Hd]; [eexists; reflexivity|].
  destruct (negb (Str.truthy dateStr)); [eexists; reflexivity|].
  destruct (parseLocalDate tza dateStr) as [d|]; [|congruence]. cbn [bind].
  destruct (Num.isNaN (getTime d)); [eexists; reflexivity|].
  destruct (Str.truthy startDate); cbn [bind].
  - destruct (Num.lt _ _); [eexists; reflexivity|].
    destruct He as [-> | He]; [eexists; reflexivity|].
    destruct (Str.truthy endDate); [|eexists; reflexivity].
    destruct (parseLocalDate tza endDate) as [e|]; [|congruence]. cbn [bind].
    destruct (Num.lt _ _); eexists; reflexivity.
  - destruct He as [-> | He]; [eexists; reflexivity|].
    destruct (Str.truthy endDate); [|eexists; reflexivity].
    destruct (parseLocalDate tza endDate) as [e|]; [|congruence]. cbn [bind].
    destruct (Num.lt _ _); eexists; reflexivity.
Qed.

(** Hence [visibleRanges] returns on a data set whose event dates are
    empty or decode. *)
Lemma visibleRanges_total (startDate endDate : string) (ranges : list Range) :
  endDate = "" \/ parseLocalDate tza endDate <> None ->
  (forall r evs ev,
      In r ranges -> stevner r = Some evs -> In ev evs ->
      date ev = "" \/ parseLocalDate tza (date ev) <> None) ->
  exists visible, visibleRanges tza startDate endDate ranges = Ret visible.
Proof.
  intros He Hd. unfold visibleRanges.
  destruct (negb (Str.truthy startDate) && negb (Str.truthy endDate));
    [eexists; reflexivity|].
  apply filter_total. intros r I.
  destruct (stevner r) as [evs|] eqn:E; [|eexists; reflexivity].
  apply some_total. intros ev Iev.
  apply isEventWithinRange_total; [exact He|].
  exact (Hd r evs ev I E Iev).
Qed.

(** A range without events is not visible under an active filter. *)
Lemma visibleRanges_no_events (startDate endDate : string) (i : string) :
  Str.truthy startDate || Str.truthy endDate = true ->
  visibleRanges tza startDate endDate [mkRange i (Some [])] = Ret [].
Proof.
  intros A. unfold visibleRanges.
  destruct (Str.truthy startDate), (Str.truthy endDate);
    try discriminate; reflexivity.
Qed.

End Visible.

(** ** The bounds of the filter, in days *)

Lemma append_nonempty_l s u : s <> "" -> s ++ u <> "".
Proof. destruct s; [congruence | discriminate]. Qed.

Lemma formatDateLocal_nonempty tza t :
  0 <= YearFromTime (LocalTime tza t) ->
  formatDateLocal tza (mkDate (Int t)) <> "".
Proof.
  intros Y. rewrite formatDateLocal_valid by assumption.
  apply append_nonempty_l, ofNat_nonempty.
Qed.

Lemma Day_from_year_100 t : 100 <= YearFromTime t -> -683003 <= Day t.
Proof.
  intros Y. pose proof (YearFromDay_spec (Day t)) as S.
  pose proof (DayFromYear_le 100 _ Y) as K.
  change (DayFromYear 100) with (-683003) in K.
  unfold YearFromTime in K. lia.
Qed.

(** The filter between two days, for strings written by [formatDateLocal]. *)
Lemma isEventWithinRange_between tza ts te td :
  zoneInRange tza ->
  validTime ts -> validTime te -> validTime (te + msPerDay) -> validTime td ->
  100 <= YearFromTime (LocalTime tza ts) ->
  100 <= YearFromTime (LocalTime tza te) ->
  100 <= YearFromTime (LocalTime tza td) ->
  isEventWithinRange tza
    (formatDateLocal tza (mkDate (Int ts)))
    (formatDateLocal tza (mkDate (Int te)))
    (formatDateLocal tza (mkDate (Int td)))
  = Ret ((Day (LocalTime tza ts) <=? Day (LocalTime tza td))
         && (Day (LocalTime tza td) <=? Day (LocalTime tza te))).
Proof.
  intros Z Vs Ve Ve' Vd Ys Ye Yd.
  pose proof (parseLocalDate_formatDateLocal tza ts Z Vs Ys) as Ps.
  pose proof (parseLocalDate_formatDateLocal tza te Z Ve Ye) as Pe.
  pose proof (parseLocalDate_formatDateLocal tza td Z Vd Yd) as Pd.
  unfold UTC in Ps, Pe, Pd.
  pose proof (Day_from_year_100 _ Ye) as Le.
  assert (De : Day (MakeDate (Day (LocalTime tza te)) 0) = Day (LocalTime tza te))
    by (apply Day_MakeDate; unfold msPerDay; lia).
  rewrite (isEventWithinRange_local tza _ _ _ _ _ _
             (formatDateLocal_nonempty tza ts ltac:(lia))
             (formatDateLocal_nonempty tza te ltac:(lia))
             (formatDateLocal_nonempty tza td ltac:(lia))
             Pd Ps Pe).
  - f_equal. rewrite De.
    set (ds := Day (LocalTime tza ts)) in *.
    set (de := Day (LocalTime tza te)) in *.
    set (dd := Day (LocalTime tza td)) in *.
    unfold MakeDate, MakeTime, msPerDay.
    destruct (Z.ltb_spec (dd * 86400000 + 0) (ds * 86400000 + 0)),
      (Z.ltb_spec (de * 86400000 + (23 * 3600000 + 59 * 60000 + 59 * 1000 + 999))
                  (dd * 86400000 + 0)),
      (Z.leb_spec ds dd), (Z.leb_spec dd de); cbn [negb andb];
      try reflexivity; lia.
  - rewrite De.
    unfold zoneInRange, validTime, LocalTime, MakeDate, MakeTime, Day,
      msPerDay, maxTime in *.
    lia.
Qed.

(** X1: for bounds and an event date written by [formatDateLocal], the filter
    accepts the event exactly when its local day lies between the local
    days of the bounds, both included. *)
Lemma isEventWithinRange_days tza ts te td :
  zoneInRange tza ->
  validTime ts -> validTime te -> validTime (te + msPerDay) -> validTime td ->
  100 <= YearFromTime (LocalTime tza ts) ->
  100 <= YearFromTime (LocalTime tza te) ->
  100 <= YearFromTime (LocalTime tza td) ->
  isEventWithinRange tza
    (formatDateLocal tza (mkDate (Int ts)))
    (formatDateLocal tza (mkDate (Int te)))
    (formatDateLocal tza (mkDate (Int td)))
  = Ret ((Day (LocalTime tza ts) <=? Day (LocalTime tza td))
         && (Day (LocalTime tza td) <=? Day (LocalTime tza te))).
Proof. exact (isEventWithinRange_between tza ts te td). Qed.

(** ** One-sided bounds *)



Section OneSided.

Variable tza : Z.
Hypothesis tza_ok : zoneInRange tza.



End OneSided.

(** ** Calendar days and their strings *)

Lemma MonthFromDayInYear_unique leap k x :
  0 <= k <= 11 ->
  monthStart leap k <= x < monthStart leap (k + 1) ->
  MonthFromDayInYear leap x = k.
Proof.
  intros K.
  assert (C : k = 0 \/ k = 1 \/ k = 2 \/ k = 3 \/ k = 4 \/ k = 5 \/ k = 6
              \/ k = 7 \/ k = 8 \/ k = 9 \/ k = 10 \/ k = 11) by lia.
  unfold MonthFromDayInYear.
  destruct leap;
    repeat (destruct C as [-> | C];
            [cbn; intros H;
             repeat match goal with
                    | |- context [?a <? ?b] => destruct (Z.ltb_spec a b)
                    end; lia|]);
    subst k; cbn; intros H;
    repeat match goal with
           | |- context [?a <? ?b] => destruct (Z.ltb_spec a b)
           end; lia.
Qed.

Lemma monthStart_le_year leap k :
  0 <= k <= 12 -> 0 <= monthStart leap k <= monthStart leap 12.
Proof.
  intros K.
  assert (C : k = 0 \/ k = 1 \/ k = 2 \/ k = 3 \/ k = 4 \/ k = 5 \/ k = 6
              \/ k = 7 \/ k = 8 \/ k = 9 \/ k = 10 \/ k = 11 \/ k = 12) by lia.
  destruct leap;
    repeat (destruct C as [-> | C]; [cbn; lia|]); subst k; cbn; lia.
Qed.

(** The year, month and date of a time value on the day that [MakeDay]
    gives for a day of the calendar. *)
Lemma calendar_of_MakeDay y m d t :
  0 <= m <= 11 -> 1 <= d <= daysInMonth y (m + 1) ->
  Day t = MakeDay y m d ->
  YearFromTime t = y /\ MonthFromTime t = m /\ DateFromTime t = d.
Proof.
  intros M D E. unfold daysInMonth in D.
  replace (m + 1 - 1) with m in D by lia.
  unfold MakeDay in E.
  rewrite (Z.div_small m 12), (Z.mod_small m 12), Z.add_0_r in E by lia.
  pose proof (monthStart_le_year (isLeap y) (m + 1) ltac:(lia)) as A.
  pose proof (monthStart_le_year (isLeap y) m ltac:(lia)) as B.
  assert (Y : YearFromTime t = y).
  { unfold YearFromTime. apply YearFromDay_unique.
    rewrite DayFromYear_step, <- monthStart_DaysInYear. lia. }
  assert (W : DayWithinYear t = monthStart (isLeap y) m + d - 1)
    by (unfold DayWithinYear; rewrite Y; lia).
  assert (Mo : MonthFromTime t = m).
  { unfold MonthFromTime. rewrite Y, W.
    apply MonthFromDayInYear_unique; lia. }
  repeat split; try assumption.
  unfold DateFromTime. rewrite Mo, Y, W. lia.
Qed.

Lemma isLeap_1900 y : 0 < y <= 99 -> isLeap (1900 + y) = isLeap y.
Proof.
  intros H. pose proof (isLeap_spec y) as A.
  pose proof (isLeap_spec (1900 + y)) as B.
  destruct (isLeap y), (isLeap (1900 + y)); try reflexivity.
  - destruct A as [A _]. specialize (A eq_refl).
    assert (K : (1900 + y) mod 4 = 0 /\
                ((1900 + y) mod 100 <> 0 \/ (1900 + y) mod 400 = 0)) by lia.
    apply B in K. discriminate.
  - destruct B as [B _]. specialize (B eq_refl).
    assert (K : y mod 4 = 0 /\ (y mod 100 <> 0 \/ y mod 400 = 0)) by lia.
    apply A in K. discriminate.
Qed.

Lemma DateFromTime_in_month t :
  1 <= DateFromTime t <= daysInMonth (YearFromTime t) (MonthFromTime t + 1).
Proof.
  unfold daysInMonth. replace (MonthFromTime t + 1 - 1) with (MonthFromTime t) by lia.
  unfold DateFromTime, MonthFromTime.
  pose proof (DayWithinYear_range t) as R.
  rewrite <- monthStart_DaysInYear in R.
  destruct (MonthFromDayInYear_spec _ _ R) as [M B]. lia.
Qed.

Lemma Day_of_local_midnight tza D : Day (LocalTime tza (MakeDate D 0 - tza)) = D.
Proof. unfold LocalTime, Day, MakeDate, msPerDay. lia. Qed.

Lemma MakeDay_bounds y m d :
  100 <= y <= 275000 -> 0 <= m <= 11 -> 1 <= d <= daysInMonth y (m + 1) ->
  -683003 <= MakeDay y m d < 99722525.
Proof.
  intros Y M D. unfold daysInMonth in D.
  replace (m + 1 - 1) with m in D by lia.
  unfold MakeDay.
  rewrite (Z.div_small m 12), (Z.mod_small m 12), Z.add_0_r by lia.
  pose proof (monthStart_le_year (isLeap y) (m + 1) ltac:(lia)) as A.
  pose proof (monthStart_le_year (isLeap y) m ltac:(lia)) as B.
  pose proof (DayFromYear_le 100 y ltac:(lia)) as L.
  pose proof (DayFromYear_le (y + 1) 275001 ltac:(lia)) as U.
  rewrite DayFromYear_step, <- monthStart_DaysInYear in U.
  change (DayFromYear 100) with (-683003) in L.
  change (DayFromYear 275001) with 99722525 in U.
  lia.
Qed.

Section Canonical.

Variable tza : Z.
Hypothesis tza_ok : zoneInRange tza.

(** X4: the canonical string of a day of the calendar (year 100 to 275000)
    decodes to the local midnight of that day, with that year, month and
    date, and encoding the decoded date gives the string back. *)
Theorem decode_canonical (y m d : Z) :
  100 <= y <= 275000 -> 1 <= m <= 12 -> 1 <= d <= daysInMonth y m ->
  exists dt,
    parseLocalDate tza (canonical y m d) = Some dt
    /\ getTime dt = Int (MakeDate (MakeDay y (m - 1) d) 0 - tza)
    /\ getFullYear tza dt = Int y
    /\ getMonth tza dt = Int (m - 1)
    /\ getDate tza dt = Int d
    /\ formatDateLocal tza dt = canonical y m d.
Proof.
  intros Y M D.
  assert (D' : 1 <= d <= daysInMonth y (m - 1 + 1))
    by (replace (m - 1 + 1) with m by lia; exact D).
  pose proof (MakeDay_bounds y (m - 1) d Y ltac:(lia) D') as B.
  assert (Dm : 1 <= d <= 31).
  { unfold daysInMonth in D.
    pose proof (monthStart_width (isLeap y) (m - 1) ltac:(lia)) as W.
    replace (m - 1 + 1) with m in W by lia. lia. }
  assert (P : parseLocalDate tza (canonical y m d)
              = Some (mkDate (Int (MakeDate (MakeDay y (m - 1) d) 0 - tza)))).
  { eapply parseLocalDate_local.
    - unfold canonical. apply parts_of_formatted; lia.
    - lia.
    - lia.
    - lia.
    - unfold MakeFullYear.
      destruct (Z.leb_spec y 99); [lia|]. rewrite andb_false_r. reflexivity.
    - unfold zoneInRange, MakeDate, msPerDay, maxTime in *. lia. }
  destruct (calendar_of_MakeDay y (m - 1) d
              (LocalTime tza (MakeDate (MakeDay y (m - 1) d) 0 - tza))
              ltac:(lia) D' (Day_of_local_midnight tza _)) as (Ey & Em & Ed).
  eexists. split; [exact P|]. split; [reflexivity|].
  unfold getFullYear, getMonth, getDate. cbn [getTime].
  rewrite Ey, Em, Ed. repeat split.
  rewrite formatDateLocal_valid by (rewrite Ey; lia).
  rewrite Ey, Em, Ed. unfold canonical.
  replace (m - 1 + 1) with m by lia. reflexivity.
Qed.

(** X5: in a time zone with a fixed offset from UTC (the zones of this
    file: no transition removes a local midnight), decoding keeps no time
    of day: a date that [parseLocalDate] returns is invalid or the local
    midnight of its day, whatever follows the day in the string. *)
Theorem parseLocalDate_midnight (s : string) (dt : Date) (t : Z) :
  parseLocalDate tza s = Some dt -> getTime dt = Int t ->
  TimeWithinDay (LocalTime tza t) = 0.
Proof.
  unfold parseLocalDate.
  destruct (_ || _); [discriminate|].
  intros E. injection E as <-.
  unfold newDate.
  destruct (toNumber _) as [|y]; [discriminate|].
  destruct (Num.sub _ _) as [|m]; [discriminate|].
  destruct (toNumber _) as [|d]; [discriminate|].
  cbn [getTime]. unfold TimeClip.
  destruct (_ <=? _); [|discriminate].
  intros E. injection E as <-.
  change (MakeTime 0 0 0 0) with 0.
  unfold TimeWithinDay, LocalTime, UTC, MakeDate, msPerDay. lia.
Qed.

(** X6: two valid dates from the year 100 on are encoded as the same string
    exactly when they fall on the same local calendar day. *)
Theorem formatDateLocal_same_day_iff (t u : Z) :
  validTime t -> validTime u ->
  100 <= YearFromTime (LocalTime tza t) ->
  100 <= YearFromTime (LocalTime tza u) ->
  (formatDateLocal tza (mkDate (Int t)) = formatDateLocal tza (mkDate (Int u))
   <-> Day (LocalTime tza t) = Day (LocalTime tza u)).
Proof.
  intros Vt Vu Yt Yu. split; [|apply formatDateLocal_of_Day].
  intros E.
  pose proof (parseLocalDate_formatDateLocal tza t tza_ok Vt Yt) as Pt.
  pose proof (parseLocalDate_formatDateLocal tza u tza_ok Vu Yu) as Pu.
  rewrite E, Pu in Pt. injection Pt as Pt.
  unfold UTC, MakeDate, msPerDay in Pt. lia.
Qed.

End Canonical.

(** Witness: 29 February 2024 in Oslo. *)
Lemma decode_canonical_witness :
  exists dt,
    parseLocalDate cet (canonical 2024 2 29) = Some dt
    /\ getTime dt = Int (MakeDate (MakeDay 2024 (2 - 1) 29) 0 - cet)
    /\ getFullYear cet dt = Int 2024
    /\ getMonth cet dt = Int (2 - 1)
    /\ getDate cet dt = Int 29
    /\ formatDateLocal cet dt = canonical 2024 2 29.
Proof.
  apply (decode_canonical cet).
  - unfold zoneInRange, cet, msPerDay. lia.
  - lia.
  - lia.
  - vm_compute. split; discriminate.
Defined.

(** Witness: a time stamp in the date string, in Oslo. *)
Lemma parseLocalDate_midnight_witness :
  TimeWithinDay (LocalTime cet 1749942000000) = 0.
Proof.
  apply (parseLocalDate_midnight cet "2025-06-15T10:30:00"
           (mkDate (Int 1749942000000))).
  - vm_compute. reflexivity.
  - reflexivity.
Defined.

(** Witness: noon and 18:00 of 15 June 2025 in Oslo. *)
Lemma formatDateLocal_same_day_iff_witness :
  formatDateLocal cet (mkDate (Int 1749981600000))
  = formatDateLocal cet (mkDate (Int 1750003200000))
  <-> Day (LocalTime cet 1749981600000) = Day (LocalTime cet 1750003200000).
Proof.
  apply (formatDateLocal_same_day_iff cet).
  - unfold zoneInRange, cet, msPerDay. lia.
  - unfold validTime, maxTime. lia.
  - unfold validTime, maxTime. lia.
  - vm_compute. discriminate.
  - vm_compute. discriminate.
Defined.

(** ** Where the round trip stops *)

Lemma parseLocalDate_before_year_1 tza t :
  YearFromTime (LocalTime tza t) <= 0 ->
  parseLocalDate tza (formatDateLocal tza (mkDate (Int t))) = None.
Proof.
  intros Y.
  destruct (Z.eq_dec (YearFromTime (LocalTime tza t)) 0) as [E | N].
  - pose proof (MonthFromTime_range (LocalTime tza t)) as M.
    pose proof (DateFromTime_range (LocalTime tza t)) as D.
    rewrite formatDateLocal_valid by lia.
    unfold parseLocalDate. rewrite parts_of_formatted by lia.
    rewrite E. reflexivity.
  - unfold formatDateLocal, getFullYear. cbn [getTime Str.ofNum].
    destruct (Z.ltb_spec (YearFromTime (LocalTime tza t)) 0); [|lia].
    cbn [append]. unfold parseLocalDate. cbn [Str.split].
    change (Ascii.eqb "-" "-") with true. cbv iota.
    reflexivity.
Qed.

Lemma parseLocalDate_two_digit_year tza t :
  zoneInRange tza ->
  0 < YearFromTime (LocalTime tza t) <= 99 ->
  exists dt,
    parseLocalDate tza (formatDateLocal tza (mkDate (Int t))) = Some dt
    /\ getFullYear tza dt = Int (1900 + YearFromTime (LocalTime tza t))
    /\ getMonth tza dt = Int (MonthFromTime (LocalTime tza t))
    /\ getDate tza dt = Int (DateFromTime (LocalTime tza t)).
Proof.
  intros Z Y.
  pose proof (MonthFromTime_range (LocalTime tza t)) as M.
  pose proof (DateFromTime_range (LocalTime tza t)) as D.
  pose proof (DateFromTime_in_month (LocalTime tza t)) as W.
  set (y := YearFromTime (LocalTime tza t)) in *.
  set (m := MonthFromTime (LocalTime tza t)) in *.
  set (d := DateFromTime (LocalTime tza t)) in *.
  assert (W' : 1 <= d <= daysInMonth (1900 + y) (m + 1)).
  { unfold daysInMonth in *. rewrite (isLeap_1900 y Y). exact W. }
  pose proof (MakeDay_bounds (1900 + y) m d ltac:(lia) M W') as B.
  assert (P : parseLocalDate tza (formatDateLocal tza (mkDate (Int t)))
              = Some (mkDate (Int (MakeDate (MakeDay (1900 + y) m d) 0 - tza)))).
  { rewrite formatDateLocal_valid by (fold y; lia). fold y m d.
    eapply parseLocalDate_local.
    - apply parts_of_formatted; lia.
    - lia.
    - lia.
    - lia.
    - unfold MakeFullYear.
      destruct (Z.leb_spec 0 y), (Z.leb_spec y 99); try lia.
      cbn [andb]. replace (m + 1 - 1) with m by lia. reflexivity.
    - unfold zoneInRange, MakeDate, msPerDay, maxTime in *. lia. }
  destruct (calendar_of_MakeDay (1900 + y) m d
              (LocalTime tza (MakeDate (MakeDay (1900 + y) m d) 0 - tza))
              M W' (Day_of_local_midnight tza _)) as (Ey & Em & Ed).
  eexists. split; [exact P|].
  unfold getFullYear, getMonth, getDate. cbn [getTime].
  rewrite Ey, Em, Ed. repeat split.
Qed.

Section RoundTripLimit.

Variable tza : Z.
Hypothesis tza_ok : zoneInRange tza.

(** X7: a valid date survives encoding and decoding with its year, month and
    day exactly when its local year is at least 100: for the years 1 to
    99 the decoded year is 1900 more (month and day are kept), and from
    the year 0 back the encoded string decodes to [null]. *)
Theorem roundTrips_iff_year_100 (t : Z) :
  validTime t ->
  (roundTrips tza (mkDate (Int t)) <-> 100 <= YearFromTime (LocalTime tza t))
  /\ (0 < YearFromTime (LocalTime tza t) <= 99 ->
      exists dt,
        parseLocalDate tza (formatDateLocal tza (mkDate (Int t))) = Some dt
        /\ getFullYear tza dt = Int (1900 + YearFromTime (LocalTime tza t))
        /\ getMonth tza dt = getMonth tza (mkDate (Int t))
        /\ getDate tza dt = getDate tza (mkDate (Int t)))
  /\ (YearFromTime (LocalTime tza t) <= 0 ->
      parseLocalDate tza (formatDateLocal tza (mkDate (Int t))) = None).
Proof.
  intros V. split; [split|split].
  - intros (d' & P & S & _).
    destruct (Z.le_gt_cases 100 (YearFromTime (LocalTime tza t))) as [|L];
      [assumption | exfalso].
    destruct (Z.le_gt_cases (YearFromTime (LocalTime tza t)) 0) as [N | Q].
    + rewrite (parseLocalDate_before_year_1 tza t N) in P. discriminate.
    + destruct (parseLocalDate_two_digit_year tza t tza_ok ltac:(lia))
        as (dt & P' & Y' & _).
      rewrite P' in P. injection P as <-.
      unfold getFullYear at 1 in S. cbn [getTime] in S.
      rewrite Y' in S.
      assert (K : YearFromTime (LocalTime tza t)
                  = 1900 + YearFromTime (LocalTime tza t)) by congruence.
      lia.
  - intros Y. unfold roundTrips.
    rewrite parseLocalDate_formatDateLocal by assumption.
    eexists. split; [reflexivity|].
    destruct (calendar_of_Day _ _ (eq_sym (Day_local_midnight tza t)))
      as (Ey & Em & Ed).
    unfold sameCalendarDay, getFullYear, getMonth, getDate. cbn [getTime].
    rewrite Ey, Em, Ed. repeat split.
  - intros Y. exact (parseLocalDate_two_digit_year tza t tza_ok Y).
  - apply parseLocalDate_before_year_1.
Qed.

End RoundTripLimit.

(** Witness: 1 January of the year 50, in Oslo, does not survive. *)
Lemma roundTrips_iff_year_100_witness :
  roundTrips cet (mkDate (Int (-60589299600000)))
  <-> 100 <= YearFromTime (LocalTime cet (-60589299600000)).
Proof.
  apply (roundTrips_iff_year_100 cet).
  - unfold zoneInRange, cet, msPerDay. lia.
  - unfold validTime, maxTime. lia.
Defined.

(** Witness: a week of June 2025 in Oslo. *)
Lemma isEventWithinRange_days_witness :
  isEventWithinRange cet
    (formatDateLocal cet (mkDate (Int 1749981600000)))
    (formatDateLocal cet (mkDate (Int 1750413600000)))
    (formatDateLocal cet (mkDate (Int 1750154400000)))
  = Ret ((Day (LocalTime cet 1749981600000) <=? Day (LocalTime cet 1750154400000))
         && (Day (LocalTime cet 1750154400000) <=? Day (LocalTime cet 1750413600000))).
Proof.
  apply (isEventWithinRange_days cet).
  - unfold zoneInRange, cet, msPerDay. lia.
  - unfold validTime, maxTime. lia.
  - unfold validTime, maxTime. lia.
  - unfold validTime, maxTime, msPerDay. lia.
  - unfold validTime, maxTime. lia.
  - vm_compute. discriminate.
  - vm_compute. discriminate.
  - vm_compute. discriminate.
Defined.



(** ** More on the generated events *)

Lemma generated_event tza now range index ev :
  In ev (generateStevnerForRange tza now range index) ->
  exists i, 0 <= i /\ ev = stevne tza range index (mkDate (Int now)) i.
Proof.
  unfold generateStevnerForRange. destruct (negb _); [contradiction|].
  intros H. apply in_map_iff in H as (i & <- & Hi).
  exists i. split; [exact (loopIndices_nonneg _ _ Hi) | reflexivity].
Qed.

Lemma YearFromDay_le a b : a <= b -> YearFromDay a <= YearFromDay b.
Proof.
  intros H. pose proof (YearFromDay_spec a) as A.
  pose proof (YearFromDay_spec b) as B.
  destruct (Z.le_gt_cases (YearFromDay a) (YearFromDay b)) as [|G]; [assumption|].
  pose proof (DayFromYear_le (YearFromDay b + 1) (YearFromDay a) ltac:(lia)).
  lia.
Qed.

Lemma append_inj_l s a b : s ++ a = s ++ b -> a = b.
Proof.
  induction s as [|c s IH]; cbn; [tauto|].
  intros E. injection E as E. exact (IH E).
Qed.

Section Generated.

Variable tza : Z.

(** X8: on an even array position a record with a non-empty identifier gets
    one event when the code of the first character of the identifier is
    even and two when it is odd. *)
Theorem generated_count
    (now : Z) (c : ascii) (rest : string) (stv : option (list Event))
    (index : Z) :
  0 <= index -> Z.even index = true ->
  Z.of_nat (List.length
              (generateStevnerForRange tza now (mkRange (String c rest) stv) index))
  = 1 + Str.code c mod 2.
Proof.
  intros I E. unfold generateStevnerForRange.
  rewrite (rem2_even _ E). cbn [negb skytterlag_id Str.charCodeAt0 Num.add Num.rem].
  change (2 =? 0) with false. cbv iota. cbn [Num.add loopIndices].
  rewrite length_map, length_map, length_seq.
  pose proof (code_range c) as R.
  apply Z.even_spec in E as [k ->].
  rewrite Z2Nat.id by lia. lia.
Qed.

(** X9: the identifiers of the events generated for a record are the
    identifier of the record followed by a dash and the position of the
    event, and no two of them are equal. *)
Theorem generated_ids_unique (now : Z) (range : Range) (index : Z) :
  let evs := generateStevnerForRange tza now range index in
  NoDup (map id evs)
  /\ forall k ev,
       nth_error evs k = Some ev ->
       id ev = skytterlag_id range ++ "-" ++ Str.ofNat (Z.of_nat k).
Proof.
  cbv zeta. unfold generateStevnerForRange.
  destruct (negb _).
  { split; [constructor | intros [|k] ev; discriminate]. }
  set (count := Num.add _ _).
  assert (C : loopIndices count = [] \/ loopIndices count = [0]
              \/ loopIndices count = [0; 1]).
  { subst count. destruct (Str.charCodeAt0 _) as [|x]; [left; reflexivity|].
    cbn [Num.add Num.rem]. change (2 =? 0) with false. cbv iota.
    cbn [Num.add loopIndices].
    assert (K : 1 + Z.rem (x + index) 2 <= 0 \/ 1 + Z.rem (x + index) 2 = 1
                \/ 1 + Z.rem (x + index) 2 = 2) by lia.
    destruct K as [K | [-> | ->]]; [|right; left; reflexivity|right; right; reflexivity].
    left. destruct (1 + Z.rem (x + index) 2); try lia; reflexivity. }
  destruct C as [-> | [-> | ->]]; cbn [map].
  - split; [constructor | intros [|k] ev; discriminate].
  - split.
    + constructor; [intros [] | constructor].
    + intros [|[|k]] ev E; try discriminate. injection E as <-. reflexivity.
  - split.
    + constructor; [|constructor; [intros [] | constructor]].
      intros [E | []]. cbn [id stevne] in E.
      apply append_inj_l in E. discriminate E.
    + intros [|[|[|k]]] ev E; try discriminate; injection E as <-; reflexivity.
Qed.

(** X10: on an array position, an event that is open for registration has at
    least 10 attendees and fewer than its capacity, and a closed one has
    between 1 attendee and its capacity. *)
Theorem attendees_by_rsvp
    (now : Z) (range : Range) (index : Z) (ev : Event) :
  0 <= index ->
  In ev (generateStevnerForRange tza now range index) ->
  exists a m,
    attendees ev = Int a /\ maxAttendees ev = Int m
    /\ (if rsvpOpen ev then 10 <= a < m else 1 <= a <= m).
Proof.
  intros I H. apply generated_event in H as (i & Hi & ->).
  unfold stevne. cbn [attendees maxAttendees rsvpOpen].
  set (m := 40 + Z.rem (index + i) 4 * 20).
  assert (M : m = 40 \/ m = 60 \/ m = 80 \/ m = 100) by (subst m; lia).
  destruct (negb (Z.rem (index + i) 3 =? 0)); cbn [Num.rem Num.add Num.min].
  - destruct (Z.eqb_spec (m - 10) 0); [lia|]. cbn [Num.add Num.min].
    eexists _, m. repeat split; lia.
  - destruct (Z.eqb_spec m 0); [lia|]. cbn [Num.add Num.min].
    eexists _, m. repeat split; lia.
Qed.

(** The event at position [k] of a generated list is the one that the
    loop makes for [i = k]. *)
Lemma generated_event_at (now : Z) (range : Range) (index : Z) (k : nat)
    (ev : Event) :
  nth_error (generateStevnerForRange tza now range index) k = Some ev ->
  ev = stevne tza range index (mkDate (Int now)) (Z.of_nat k).
Proof.
  unfold generateStevnerForRange. destruct (negb _); [destruct k; discriminate|].
  rewrite nth_error_map.
  destruct (nth_error (loopIndices _) k) as [i|] eqn:N; [|discriminate].
  cbn [option_map]. intros E. injection E as <-. f_equal.
  destruct (Num.add _ _) as [|c]; cbn [loopIndices] in N; [destruct k; discriminate|].
  rewrite nth_error_map in N.
  destruct (nth_error (seq 0 (Z.to_nat c)) k) as [j|] eqn:S; [|discriminate].
  cbn [option_map] in N. injection N as <-. f_equal.
  assert (L : (k < List.length (seq 0 (Z.to_nat c)))%nat)
    by (apply nth_error_Some; rewrite S; discriminate).
  rewrite length_seq in L.
  rewrite <- (nth_error_nth _ _ 0%nat S), seq_nth by exact L. reflexivity.
Qed.

(** X11: on an array position the name, the capacity and the registration
    state of the event at position [k] of the generated list are given by
    the sum of the two positions: with [j = (index + k) mod 4] the name is
    the label at position [j] of the list and the capacity is
    [40 + 20 j], and the event is closed exactly when [index + k] is a
    multiple of 3. *)
Theorem name_and_capacity
    (now : Z) (range : Range) (index : Z) (k : nat) (ev : Event) :
  0 <= index ->
  nth_error (generateStevnerForRange tza now range index) k = Some ev ->
  let j := (index + Z.of_nat k) mod 4 in
  nth_error baseNames (Z.to_nat j) = Some (name ev)
  /\ maxAttendees ev = Int (40 + 20 * j)
  /\ rsvpOpen ev = negb ((index + Z.of_nat k) mod 3 =? 0).
Proof.
  intros I H. apply generated_event_at in H as ->. cbv zeta.
  set (i := Z.of_nat k). assert (Hi : 0 <= i) by (subst i; lia).
  unfold stevne. cbn [name maxAttendees rsvpOpen].
  change (Z.of_nat (List.length baseNames)) with 4.
  rewrite !Z.rem_mod_nonneg by lia.
  repeat split.
  - unfold nameAt.
    assert (K : (index + i) mod 4 = 0 \/ (index + i) mod 4 = 1
                \/ (index + i) mod 4 = 2 \/ (index + i) mod 4 = 3) by lia.
    destruct K as [-> | [-> | [-> | ->]]]; reflexivity.
  - f_equal. lia.
Qed.

(** The day offset of a generated date. *)
Lemma generated_date_offset
    (now : Z) (range : Range) (index : Z) (ev : Event) :
  0 <= index -> clockInRange now ->
  In ev (generateStevnerForRange tza now range index) ->
  exists k,
    3 <= k <= 122
    /\ date ev = formatDateLocal tza (mkDate (Int (now + k * msPerDay)))
    /\ Day (LocalTime tza (now + k * msPerDay)) = Day (LocalTime tza now) + k.
Proof.
  intros I C H. apply generated_event in H as (i & Hi & ->).
  exists (3 + Z.rem (index * 5 + i * 17) 120).
  split; [rewrite Z.rem_mod_nonneg by lia; lia|].
  split.
  - unfold stevne. cbn [date]. rewrite setDate_offset.
    rewrite TimeClip_in; [reflexivity|].
    pose proof (dayOffset_range (index * 5 + i * 17)).
    unfold clockInRange, maxTime, msPerDay in *. lia.
  - unfold LocalTime.
    replace (now + (3 + Z.rem (index * 5 + i * 17) 120) * msPerDay + tza)
      with (now + tza + (3 + Z.rem (index * 5 + i * 17) 120) * msPerDay) by lia.
    apply Day_shift.
Qed.

(** X12: on an array position, with the clock at least 122 days inside the
    time values, every generated date is the encoding of the day that
    lies [k] days after today, for some [k] from 3 to 122. *)
Theorem generated_dates_ahead
    (now : Z) (range : Range) (index : Z) (ev : Event) :
  0 <= index -> clockInRange now ->
  In ev (generateStevnerForRange tza now range index) ->
  exists k,
    3 <= k <= 122
    /\ date ev = formatDateLocal tza (mkDate (Int (now + k * msPerDay)))
    /\ Day (LocalTime tza (now + k * msPerDay)) = Day (LocalTime tza now) + k.
Proof. exact (generated_date_offset now range index ev). Qed.

Hypothesis tza_ok : zoneInRange tza.

(** A generated date decodes to the local midnight of its day. *)
Lemma generated_date_decodes
    (now : Z) (range : Range) (index : Z) (ev : Event) :
  0 <= index -> clockInRange now ->
  100 <= YearFromTime (LocalTime tza now) ->
  In ev (generateStevnerForRange tza now range index) ->
  exists k,
    3 <= k <= 122
    /\ parseLocalDate tza (date ev)
       = Some (mkDate (Int (UTC tza (MakeDate (Day (LocalTime tza now) + k) 0)))).
Proof.
  intros I C Y H.
  destruct (generated_date_offset now range index ev I C H) as (k & K & E & D).
  exists k. split; [exact K|].
  rewrite E, parseLocalDate_formatDateLocal, D; try reflexivity; try assumption.
  - unfold validTime, clockInRange, maxTime, msPerDay in *. lia.
  - unfold YearFromTime in *. rewrite D.
    pose proof (YearFromDay_le (Day (LocalTime tza now))
                  (Day (LocalTime tza now) + k) ltac:(lia)).
    lia.
Qed.

(** X13: on an array position, with the clock at least 122 days inside
    the time values and in the year 100 or later, every generated date
    decodes, to the local midnight of a day 3 to 122 days ahead; hence the
    filter returns on a generated event, whatever the start bound,
    whenever the end bound is empty or decodes. *)
Theorem generated_dates_decode
    (now : Z) (range : Range) (index : Z) (ev : Event) :
  0 <= index -> clockInRange now ->
  100 <= YearFromTime (LocalTime tza now) ->
  In ev (generateStevnerForRange tza now range index) ->
  (exists k,
      3 <= k <= 122
      /\ parseLocalDate tza (date ev)
         = Some (mkDate (Int (UTC tza
                   (MakeDate (Day (LocalTime tza now) + k) 0)))))
  /\ forall startDate endDate,
       endDate = "" \/ parseLocalDate tza endDate <> None ->
       exists b, isEventWithinRange tza startDate endDate (date ev) = Ret b.
Proof.
  intros I C Y H.
  pose proof (generated_date_decodes now range index ev I C Y H) as D.
  split; [exact D|].
  intros startDate endDate He.
  apply isEventWithinRange_total; [exact He|].
  right. destruct D as (k & _ & P). rewrite P. discriminate.
Qed.

End Generated.

(** Witness: the letter A (code 65) at position 0. *)
Lemma generated_count_witness :
  Z.of_nat (List.length
              (generateStevnerForRange cet 1762153200000 (mkRange "ABC" None) 0))
  = 1 + Str.code "A" mod 2.
Proof.
  apply (generated_count cet 1762153200000 "A" "BC" None 0).
  - lia.
  - reflexivity.
Defined.

(** Witness: the second event of the range "ABC" at position 0. *)
Lemma generated_ids_unique_witness :
  id (stevne cet (mkRange "ABC" None) 0 (mkDate (Int 1762153200000)) 1)
  = "ABC" ++ "-" ++ Str.ofNat (Z.of_nat 1).
Proof.
  apply (proj2 (generated_ids_unique cet 1762153200000 (mkRange "ABC" None) 0)
               1%nat).
  reflexivity.
Defined.

Lemma attendees_by_rsvp_witness :
  exists a m,
    attendees (stevne cet (mkRange "ABC" None) 0 (mkDate (Int 1762153200000)) 1)
    = Int a
    /\ maxAttendees
         (stevne cet (mkRange "ABC" None) 0 (mkDate (Int 1762153200000)) 1)
       = Int m
    /\ (if rsvpOpen
             (stevne cet (mkRange "ABC" None) 0 (mkDate (Int 1762153200000)) 1)
        then 10 <= a < m else 1 <= a <= m).
Proof.
  apply (attendees_by_rsvp cet 1762153200000 (mkRange "ABC" None) 0).
  - lia.
  - right. left. reflexivity.
Defined.

Lemma name_and_capacity_witness :
  let ev := stevne cet (mkRange "ABC" None) 0 (mkDate (Int 1762153200000)) 1 in
  let j := (0 + Z.of_nat 1) mod 4 in
  nth_error baseNames (Z.to_nat j) = Some (name ev)
  /\ maxAttendees ev = Int (40 + 20 * j)
  /\ rsvpOpen ev = negb ((0 + Z.of_nat 1) mod 3 =? 0).
Proof.
  apply (name_and_capacity cet 1762153200000 (mkRange "ABC" None) 0 1%nat).
  - lia.
  - reflexivity.
Defined.

Lemma generated_dates_ahead_witness :
  exists k,
    3 <= k <= 122
    /\ date (stevne cet (mkRange "ABC" None) 0 (mkDate (Int 1762153200000)) 1)
       = formatDateLocal cet (mkDate (Int (1762153200000 + k * msPerDay)))
    /\ Day (LocalTime cet (1762153200000 + k * msPerDay))
       = Day (LocalTime cet 1762153200000) + k.
Proof.
  apply (generated_dates_ahead cet 1762153200000 (mkRange "ABC" None) 0).
  - lia.
  - unfold clockInRange, maxTime, msPerDay. lia.
  - right. left. reflexivity.
Defined.

Lemma generated_dates_decode_witness :
  let ev := stevne cet (mkRange "ABC" None) 0 (mkDate (Int 1762153200000)) 1 in
  (exists k,
      3 <= k <= 122
      /\ parseLocalDate cet (date ev)
         = Some (mkDate (Int (UTC cet
                   (MakeDate (Day (LocalTime cet 1762153200000) + k) 0)))))
  /\ forall startDate endDate,
       endDate = "" \/ parseLocalDate cet endDate <> None ->
       exists b, isEventWithinRange cet startDate endDate (date ev) = Ret b.
Proof.
  apply (generated_dates_decode cet ltac:(unfold zoneInRange, cet, msPerDay; lia)
           1762153200000 (mkRange "ABC" None) 0).
  - lia.
  - unfold clockInRange, maxTime, msPerDay. lia.
  - vm_compute. discriminate.
  - right. left. reflexivity.
Defined.

(** ** The loader *)

Lemma mapIndexed_nth {A B : Type} (f : A -> Z -> B) (i : Z) (xs : list A)
    (k : nat) :
  nth_error (mapIndexed f i xs) k
  = option_map (fun x => f x (i + Z.of_nat k)) (nth_error xs k).
Proof.
  revert i k. induction xs as [|x r IH]; intros i [|k]; cbn [mapIndexed nth_error option_map];
    try reflexivity.
  - rewrite Z.add_0_r. reflexivity.
  - rewrite IH. destruct (nth_error r k); cbn [option_map]; [|reflexivity].
    do 2 f_equal. lia.
Qed.


Section Loader.

Variable tza : Z.


(** X15: a record that comes with events keeps exactly them, and a record
    without (no array, or an empty one) at position [k] gets the events
    that the generator makes for it at [k]: none when [k] is odd. *)
Theorem withStevner_events
    (clock : Z -> Z) (withCoords : list Range) (k : nat) (r : Range) :
  nth_error withCoords k = Some r ->
  exists r',
    nth_error (withStevner tza clock withCoords) k = Some r'
    /\ skytterlag_id r' = skytterlag_id r
    /\ (forall e l, stevner r = Some (e :: l) -> stevner r' = Some (e :: l))
    /\ (stevner r = None \/ stevner r = Some [] ->
        stevner r'
        = Some (generateStevnerForRange tza (clock (Z.of_nat k)) r (Z.of_nat k)))
    /\ (stevner r = None \/ stevner r = Some [] ->
        Nat.odd k = true -> stevner r' = Some []).
Proof.
  intros H. unfold withStevner. rewrite mapIndexed_nth, H. cbn [option_map].
  eexists. split; [reflexivity|]. cbn [skytterlag_id stevner].
  split; [reflexivity|]. split; [|split].
  - intros e l ->. reflexivity.
  - intros [-> | ->]; reflexivity.
  - intros E O.
    assert (G : generateStevnerForRange tza (clock (Z.of_nat k)) r (Z.of_nat k) = []).
    { unfold generateStevnerForRange.
      rewrite rem2_odd; [reflexivity|].
      apply Nat.odd_spec in O as [j ->]. apply Z.odd_spec.
      exists (Z.of_nat j). lia. }
    destruct E as [-> | ->]; cbn [Z.add Z.of_nat]; rewrite G; reflexivity.
Qed.

Hypothesis tza_ok : zoneInRange tza.

(** On a loaded data set the list of visible ranges is computed without
    an exception, whatever the start bound, when the clock is in range
    (year 100 or later, 122 days inside the time values), the end bound is
    empty or decodes, and the dates of the real events are empty or
    decode: the generated events never make the filter throw. *)
Theorem visibleRanges_of_loaded_returns
    (clock : Z -> Z) (withCoords : list Range) (startDate endDate : string) :
  (forall idx, clockInRange (clock idx)
               /\ 100 <= YearFromTime (LocalTime tza (clock idx))) ->
  endDate = "" \/ parseLocalDate tza endDate <> None ->
  (forall r evs ev,
      In r withCoords -> stevner r = Some evs -> In ev evs ->
      date ev = "" \/ parseLocalDate tza (date ev) <> None) ->
  exists visible,
    visibleRanges tza startDate endDate (withStevner tza clock withCoords)
    = Ret visible.
Proof.
  intros C He Hd. apply visibleRanges_total; [exact He|].
  intros r' evs ev I E Iev.
  apply In_nth_error in I as [k I].
  unfold withStevner in I. rewrite mapIndexed_nth in I.
  destruct (nth_error withCoords k) as [r|] eqn:N; [|discriminate].
  injection I as <-. cbn [stevner] in E. injection E as <-.
  destruct (stevner r) as [[|e l]|] eqn:S.
  - right. destruct (C (Z.of_nat k)) as [C1 C2].
    destruct (generated_date_decodes tza tza_ok (clock (Z.of_nat k)) r
                (Z.of_nat k) ev ltac:(lia) C1 C2 Iev)
      as (j & _ & P).
    rewrite P. discriminate.
  - exact (Hd r (e :: l) ev (nth_error_In _ _ N) S Iev).
  - right. destruct (C (Z.of_nat k)) as [C1 C2].
    destruct (generated_date_decodes tza tza_ok (clock (Z.of_nat k)) r
                (Z.of_nat k) ev ltac:(lia) C1 C2 Iev)
      as (j & _ & P).
    rewrite P. discriminate.
Qed.

End Loader.

(** Witness: the second of two records brings its own event. *)
Lemma withStevner_events_witness :
  exists r',
    nth_error
      (withStevner cet (fun _ => 1762153200000)
         [mkRange "A" None;
          mkRange "B" (Some [mkEvent "B-0" "Banestevne" true (Int 10) (Int 40)
                               "2025-12-24"])]) 1
    = Some r'
    /\ skytterlag_id r' = "B"
    /\ stevner r' = Some [mkEvent "B-0" "Banestevne" true (Int 10) (Int 40)
                            "2025-12-24"].
Proof.
  destruct (withStevner_events cet (fun _ => 1762153200000)
              [mkRange "A" None;
               mkRange "B" (Some [mkEvent "B-0" "Banestevne" true (Int 10)
                                    (Int 40) "2025-12-24"])]
              1 _ eq_refl) as (r' & N & I & K & _).
  exists r'. split; [exact N|]. split; [exact I|].
  exact (K _ _ eq_refl).
Defined.

(** Witness: two records without events, loaded on 3 November 2025 in
    Oslo, filtered from 1 December 2025. *)
Lemma visibleRanges_of_loaded_returns_witness :
  exists visible,
    visibleRanges cet "2025-12-01" ""
      (withStevner cet (fun _ => 1762153200000)
         [mkRange "A" None; mkRange "B" (Some [])])
    = Ret visible.
Proof.
  apply (visibleRanges_of_loaded_returns cet).
  - unfold zoneInRange, cet, msPerDay. lia.
  - intros _. split.
    + unfold clockInRange, maxTime, msPerDay. lia.
    + vm_compute. discriminate.
  - left. reflexivity.
  - intros r evs ev [<- | [<- | []]] E; [discriminate|].
    injection E as <-. intros [].
Defined.

(** ** The popup and the date picker *)

Lemma filter_returns_eq {A : Type} (f : A -> result bool) (xs ys : list A) :
  Arr.filter f xs = Ret ys ->
  ys = List.filter (fun x => match f x with Ret true => true | _ => false end) xs.
Proof.
  revert ys. induction xs as [|a r IH]; intros ys; cbn.
  - intros E. injection E as <-. reflexivity.
  - destruct (f a) as [b|e] eqn:F; cbn; try discriminate.
    destruct (Arr.filter f r) as [r'|e] eqn:R; cbn; try discriminate.
    intros E. injection E as <-. rewrite (IH r' eq_refl).
    destruct b; reflexivity.
Qed.

Lemma filter_throws {A : Type} (f : A -> result bool) (xs : list A) (x : A) :
  In x xs -> f x = Throw TypeError -> Arr.filter f xs = Throw TypeError.
Proof.
  induction xs as [|a r IH]; [intros []|].
  intros [-> | I] F; cbn.
  - rewrite F. reflexivity.
  - destruct (f a) as [b|[]]; cbn; [|reflexivity].
    rewrite (IH I F). reflexivity.
Qed.

Lemma active_filter st en :
  Str.truthy st || Str.truthy en = true ->
  negb (Str.truthy st) && negb (Str.truthy en) = false.
Proof. destruct (Str.truthy st), (Str.truthy en); try discriminate; reflexivity. Qed.

Section Popup.

Variable tza : Z.

(** X16: without a filter the popup lists all the events of a range, in their
    order; under an active filter, when it renders, it lists exactly the
    events that the filter accepts, in their order. *)
Theorem popupStevner_shown
    (startDate endDate : string) (r : Range) (e : Event) (l : list Event) :
  stevner r = Some (e :: l) ->
  popupStevner tza "" "" r = Ret (Some (e :: l))
  /\ forall shown,
       Str.truthy startDate || Str.truthy endDate = true ->
       popupStevner tza startDate endDate r = Ret shown ->
       shown = Some (List.filter (accepts tza startDate endDate) (e :: l)).
Proof.
  intros S. unfold popupStevner. rewrite S. split; [reflexivity|].
  intros shown A. rewrite A.
  destruct (Arr.filter _ (e :: l)) as [ys|x] eqn:F; cbn [bind]; [|discriminate].
  intros E. injection E as <-. f_equal.
  exact (filter_returns_eq _ _ _ F).
Qed.

(** X17: under an active filter, the popup of a visible range, when it
    renders, lists at least one event. *)
Theorem visible_range_popup_nonempty
    (startDate endDate : string) (ranges visible : list Range) (r : Range)
    (shown : option (list Event)) :
  Str.truthy startDate || Str.truthy endDate = true ->
  visibleRanges tza startDate endDate ranges = Ret visible ->
  In r visible ->
  popupStevner tza startDate endDate r = Ret shown ->
  exists ev l, shown = Some (ev :: l).
Proof.
  intros A V I P.
  destruct (proj1 (visibleRanges_returns tza _ _ _ _ A V r) I)
    as (_ & evs & ev & S & Iev & F).
  unfold popupStevner in P. rewrite S, A in P.
  destruct evs as [|e l]; [destruct Iev|].
  destruct (Arr.filter _ (e :: l)) as [ys|x] eqn:G; cbn [bind] in P; [|discriminate].
  injection P as <-.
  assert (K : In ev ys) by (apply (filter_returns _ _ _ G); split; assumption).
  destruct ys as [|y ys]; [destruct K|]. eexists _, _. reflexivity.
Qed.

(** X18: the marker and the popup disagree on a range whose first event is
    accepted and that has a later event with an undecodable date: the
    range is visible, because the scan of its events stops at the first
    accepted one, and its popup throws, because it filters them all. *)
Theorem visible_range_popup_throws
    (startDate endDate : string) (r : Range) (e1 e2 : Event) (l : list Event) :
  Str.truthy startDate || Str.truthy endDate = true ->
  stevner r = Some (e1 :: l) ->
  isEventWithinRange tza startDate endDate (date e1) = Ret true ->
  In e2 l -> date e2 <> "" -> parseLocalDate tza (date e2) = None ->
  visibleRanges tza startDate endDate [r] = Ret [r]
  /\ popupStevner tza startDate endDate r = Throw TypeError.
Proof.
  intros A S F I D P. split.
  - unfold visibleRanges. rewrite (active_filter _ _ A).
    cbn [Arr.filter]. rewrite S. cbn [Arr.some]. rewrite F. reflexivity.
  - unfold popupStevner. rewrite S, A.
    rewrite (filter_throws _ (e1 :: l) e2); [reflexivity | right; exact I |].
    unfold isEventWithinRange.
    rewrite (active_filter _ _ A), (truthy_nonempty _ D), P. reflexivity.
Qed.

(** The popup renders when the end bound and the dates of the events of
    the range are empty or decode. *)
Lemma popupStevner_total (startDate endDate : string) (r : Range) :
  endDate = "" \/ parseLocalDate tza endDate <> None ->
  (forall evs ev, stevner r = Some evs -> In ev evs ->
                  date ev = "" \/ parseLocalDate tza (date ev) <> None) ->
  exists shown, popupStevner tza startDate endDate r = Ret shown.
Proof.
  intros He Hd. unfold popupStevner.
  destruct (stevner r) as [[|e l]|] eqn:S; try (eexists; reflexivity).
  destruct (_ || _); [|eexists; reflexivity].
  destruct (filter_total
              (fun ev => isEventWithinRange tza startDate endDate (date ev))
              (e :: l)) as [ys ->].
  - intros ev I. apply isEventWithinRange_total; [exact He|].
    exact (Hd _ ev eq_refl I).
  - eexists; reflexivity.
Qed.

Hypothesis tza_ok : zoneInRange tza.

(** What [onSelect] stores never decodes to [null]. *)
Lemma onSelect_decodes (range : option DateRange) :
  (forall r d, range = Some r -> from r = Some d \/ to r = Some d ->
               pickerDate tza d) ->
  let (s, e) := onSelect tza range in
  (s = "" \/ parseLocalDate tza s <> None)
  /\ (e = "" \/ parseLocalDate tza e <> None)
  /\ (range = None -> s = "" /\ e = "").
Proof.
  intros H. destruct range as [[f t]|]; cbn [onSelect from to].
  2: { repeat split; left; reflexivity. }
  split; [|split; [|discriminate]].
  - destruct f as [d|]; [right | left; reflexivity].
    destruct (H _ d eq_refl (or_introl eq_refl)) as (x & -> & V & Y).
    rewrite parseLocalDate_formatDateLocal by assumption. discriminate.
  - destruct t as [d|]; [right | left; reflexivity].
    destruct (H _ d eq_refl (or_intror eq_refl)) as (x & -> & V & Y).
    rewrite parseLocalDate_formatDateLocal by assumption. discriminate.
Qed.

(** X19: the bounds that [onSelect] stores are empty or decode, and they are
    both empty when the selection is cleared: a bound chosen in the day
    picker never decodes to [null]. *)
Theorem onSelect_bounds_decode (range : option DateRange) :
  (forall r d, range = Some r -> from r = Some d \/ to r = Some d ->
               pickerDate tza d) ->
  let (s, e) := onSelect tza range in
  (s = "" \/ parseLocalDate tza s <> None)
  /\ (e = "" \/ parseLocalDate tza e <> None)
  /\ (range = None -> s = "" /\ e = "").
Proof. exact (onSelect_decodes range). Qed.

(** X20: from the selection to the map: with bounds stored by [onSelect] from
    dates of the day picker, on a data set loaded with the clock in range
    and whose real events have dates that are empty or decode, the list of
    visible ranges is computed and the popup of every range renders. *)
Theorem render_of_loaded_returns
    (clock : Z -> Z) (withCoords : list Range) (range : option DateRange) :
  (forall r d, range = Some r -> from r = Some d \/ to r = Some d ->
               pickerDate tza d) ->
  (forall idx, clockInRange (clock idx)
               /\ 100 <= YearFromTime (LocalTime tza (clock idx))) ->
  (forall r evs ev,
      In r withCoords -> stevner r = Some evs -> In ev evs ->
      date ev = "" \/ parseLocalDate tza (date ev) <> None) ->
  let (s, e) := onSelect tza range in
  (exists visible,
      visibleRanges tza s e (withStevner tza clock withCoords) = Ret visible)
  /\ forall r, In r (withStevner tza clock withCoords) ->
               exists shown, popupStevner tza s e r = Ret shown.
Proof.
  intros Hp C Hd.
  pose proof (onSelect_decodes range Hp) as B.
  destruct (onSelect tza range) as [s e]. destruct B as (_ & Be & _).
  split.
  - apply visibleRanges_of_loaded_returns; assumption.
  - intros r' I. apply popupStevner_total; [exact Be|].
    intros evs ev E Iev.
    apply In_nth_error in I as [k I].
    unfold withStevner in I. rewrite mapIndexed_nth in I.
    destruct (nth_error withCoords k) as [r|] eqn:N; [|discriminate].
    injection I as <-. cbn [stevner] in E. injection E as <-.
    destruct (C (Z.of_nat k)) as [C1 C2].
    destruct (stevner r) as [[|x l]|] eqn:S.
    + right.
      destruct (generated_date_decodes tza tza_ok (clock (Z.of_nat k)) r
                  (Z.of_nat k) ev ltac:(lia) C1 C2 Iev) as (j & _ & P).
      rewrite P. discriminate.
    + exact (Hd r (x :: l) ev (nth_error_In _ _ N) S Iev).
    + right.
      destruct (generated_date_decodes tza tza_ok (clock (Z.of_nat k)) r
                  (Z.of_nat k) ev ltac:(lia) C1 C2 Iev) as (j & _ & P).
      rewrite P. discriminate.
Qed.

End Popup.

Lemma cet_inRange : zoneInRange cet.
Proof. unfold zoneInRange, cet, msPerDay. lia. Defined.

Lemma noon_15_June_2025 : pickerDate cet (mkDate (Int 1749981600000)).
Proof.
  exists 1749981600000. split; [reflexivity|]. split.
  - unfold validTime, maxTime. lia.
  - vm_compute. discriminate.
Defined.

(** Witness: a range with one event. *)
Lemma popupStevner_shown_witness :
  popupStevner cet "" ""
    (mkRange "R" (Some [mkEvent "R-0" "Banestevne" true (Int 10) (Int 40)
                          "2025-06-15"]))
  = Ret (Some [mkEvent "R-0" "Banestevne" true (Int 10) (Int 40) "2025-06-15"]).
Proof.
  apply (popupStevner_shown cet "" ""
           (mkRange "R" (Some [mkEvent "R-0" "Banestevne" true (Int 10) (Int 40)
                                 "2025-06-15"]))).
  reflexivity.
Defined.

(** Witness: a range with one event in June 2025, filtered from 1 June. *)
Lemma visible_range_popup_nonempty_witness :
  exists ev l,
    Some [mkEvent "R-0" "Banestevne" true (Int 10) (Int 40) "2025-06-15"]
    = Some (ev :: l).
Proof.
  apply (visible_range_popup_nonempty cet "2025-06-01" ""
           [mkRange "R" (Some [mkEvent "R-0" "Banestevne" true (Int 10) (Int 40)
                                 "2025-06-15"])]
           [mkRange "R" (Some [mkEvent "R-0" "Banestevne" true (Int 10) (Int 40)
                                 "2025-06-15"])]
           (mkRange "R" (Some [mkEvent "R-0" "Banestevne" true (Int 10) (Int 40)
                                 "2025-06-15"]))).
  - reflexivity.
  - vm_compute. reflexivity.
  - left. reflexivity.
  - vm_compute. reflexivity.
Defined.

(** Witness: an accepted event followed by one dated "not-a-date". *)
Lemma visible_range_popup_throws_witness :
  let r := mkRange "R"
             (Some [mkEvent "R-0" "Banestevne" true (Int 10) (Int 40) "2025-06-15";
                    mkEvent "R-1" "Kretsstevne" true (Int 10) (Int 60)
                      "not-a-date"]) in
  visibleRanges cet "2025-06-01" "" [r] = Ret [r]
  /\ popupStevner cet "2025-06-01" "" r = Throw TypeError.
Proof.
  cbv zeta.
  apply (visible_range_popup_throws cet "2025-06-01" "" _
           (mkEvent "R-0" "Banestevne" true (Int 10) (Int 40) "2025-06-15")
           (mkEvent "R-1" "Kretsstevne" true (Int 10) (Int 60) "not-a-date")
           [mkEvent "R-1" "Kretsstevne" true (Int 10) (Int 60) "not-a-date"]).
  - reflexivity.
  - reflexivity.
  - vm_compute. reflexivity.
  - left. reflexivity.
  - discriminate.
  - vm_compute. reflexivity.
Defined.

(** Witness: a first click in the day picker, on 15 June 2025. *)
Lemma onSelect_bounds_decode_witness :
  let (s, e) :=
    onSelect cet (Some (mkDateRange (Some (mkDate (Int 1749981600000))) None)) in
  (s = "" \/ parseLocalDate cet s <> None)
  /\ (e = "" \/ parseLocalDate cet e <> None)
  /\ (Some (mkDateRange (Some (mkDate (Int 1749981600000))) None) = None ->
      s = "" /\ e = "").
Proof.
  apply (onSelect_bounds_decode cet cet_inRange
           (Some (mkDateRange (Some (mkDate (Int 1749981600000))) None))).
  intros r d E H. injection E as <-. cbn [from to] in H.
  destruct H as [H | H]; [|discriminate].
  injection H as <-. exact noon_15_June_2025.
Defined.

(** Witness: one record without events, loaded on 3 November 2025 in
    Oslo, after a first click on 15 June 2025. *)
Lemma render_of_loaded_returns_witness :
  let (s, e) :=
    onSelect cet (Some (mkDateRange (Some (mkDate (Int 1749981600000))) None)) in
  (exists visible,
      visibleRanges cet s e
        (withStevner cet (fun _ => 1762153200000) [mkRange "A" None])
      = Ret visible)
  /\ forall r,
       In r (withStevner cet (fun _ => 1762153200000) [mkRange "A" None]) ->
       exists shown, popupStevner cet s e r = Ret shown.
Proof.
  apply (render_of_loaded_returns cet cet_inRange (fun _ => 1762153200000)
           [mkRange "A" None]
           (Some (mkDateRange (Some (mkDate (Int 1749981600000))) None))).
  - intros r d E H. injection E as <-. cbn [from to] in H.
    destruct H as [H | H]; [|discriminate].
    injection H as <-. exact noon_15_June_2025.
  - intros _. split.
    + unfold clockInRange, maxTime, msPerDay. lia.
    + vm_compute. discriminate.
  - intros r evs ev [<- | []] E. discriminate.
Defined.

(** ** Dates beyond the time values, and the order of the visible ranges *)

Lemma canonical_nonempty y m d : canonical y m d <> "".
Proof. unfold canonical. apply append_nonempty_l, ofNat_nonempty. Qed.

Lemma some_returns_existsb {A : Type} (f : A -> result bool) (xs : list A)
    (b : bool) :
  Arr.some f xs = Ret b ->
  b = existsb (fun x => match f x with Ret true => true | _ => false end) xs.
Proof.
  induction xs as [|x r IH]; cbn.
  - intros E. injection E as <-. reflexivity.
  - destruct (f x) as [[|]|e]; cbn; try discriminate.
    + intros E. injection E as <-. reflexivity.
    + exact IH.
Qed.

Section Edges.

Variable tza : Z.

(** X21: when the list of visible ranges is computed under an active filter,
    it is the list of the ranges that have an accepted event, in the
    order of the data set. *)
Theorem visibleRanges_in_order
    (startDate endDate : string) (ranges visible : list Range) :
  Str.truthy startDate || Str.truthy endDate = true ->
  visibleRanges tza startDate endDate ranges = Ret visible ->
  visible
  = List.filter
      (fun r => match stevner r with
                | None => false
                | Some evs => existsb (accepts tza startDate endDate) evs
                end)
      ranges.
Proof.
  intros A V. unfold visibleRanges in V. rewrite (active_filter _ _ A) in V.
  rewrite (filter_returns_eq _ _ _ V).
  apply filter_ext_in. intros r I.
  destruct (filter_returns_each _ _ _ V r I) as [b S]. rewrite S.
  destruct (stevner r) as [evs|].
  - rewrite (some_returns_existsb _ _ _ S). destruct (existsb _ evs); reflexivity.
  - injection S as <-. reflexivity.
Qed.

Hypothesis tza_ok : zoneInRange tza.

(** X22: an event dated in the year 275761 or later, beyond the time values of
    a Date, is rejected by every active filter, without an exception: its
    date decodes to an Invalid Date, which the filter tests for. *)
Theorem out_of_range_date_excluded (startDate endDate : string) (y m d : Z) :
  Str.truthy startDate || Str.truthy endDate = true ->
  275761 <= y -> 1 <= m -> 1 <= d ->
  isEventWithinRange tza startDate endDate (canonical y m d) = Ret false.
Proof.
  intros A Y M D.
  assert (P : parseLocalDate tza (canonical y m d) = Some (mkDate NaN)).
  { rewrite (parseLocalDate_parts tza (canonical y m d) y m d [])
      by (try lia; apply parts_of_formatted; lia).
    unfold newDate. f_equal. f_equal. apply TimeClip_out.
    unfold MakeFullYear. destruct (Z.leb_spec y 99); [lia|].
    rewrite andb_false_r. change (MakeTime 0 0 0 0) with 0.
    unfold MakeDay.
    pose proof (monthStart_le_year (isLeap (y + (m - 1) / 12)) ((m - 1) mod 12)
                  ltac:(lia)) as S.
    pose proof (DayFromYear_le 275761 (y + (m - 1) / 12) ltac:(lia)) as L.
    change (DayFromYear 275761) with 100000110 in L.
    unfold zoneInRange, UTC, MakeDate, msPerDay, maxTime in *. lia. }
  unfold isEventWithinRange.
  rewrite (active_filter _ _ A), (truthy_nonempty _ (canonical_nonempty y m d)), P.
  reflexivity.
Qed.

End Edges.

(** Witness: one range accepted and one rejected, from 1 June 2025. *)
Lemma visibleRanges_in_order_witness :
  [mkRange "R" (Some [mkEvent "R-0" "Banestevne" true (Int 10) (Int 40)
                        "2025-06-15"])]
  = List.filter
      (fun r => match stevner r with
                | None => false
                | Some evs => existsb (accepts cet "2025-06-01" "") evs
                end)
      [mkRange "Q" (Some []);
       mkRange "R" (Some [mkEvent "R-0" "Banestevne" true (Int 10) (Int 40)
                            "2025-06-15"])].
Proof.
  apply (visibleRanges_in_order cet "2025-06-01" "").
  - reflexivity.
  - vm_compute. reflexivity.
Defined.

(** Witness: 1 January 275761, filtered from 1 June 2025 in Oslo. *)
Lemma out_of_range_date_excluded_witness :
  isEventWithinRange cet "2025-06-01" "" (canonical 275761 1 1) = Ret false.
Proof.
  apply (out_of_range_date_excluded cet cet_inRange).
  - reflexivity.
  - lia.
  - lia.
  - lia.
Defined.

(** Witness: a data set with one range and no events. *)
Lemma visibleRanges_total_witness :
  exists visible,
    visibleRanges cet "2025-06-01" "2025-06-30" [mkRange "R" (Some [])]
    = Ret visible.
Proof.
  apply (visibleRanges_total cet).
  - right. vm_compute. discriminate.
  - intros r evs ev [<- | []] E. injection E as <-. intros [].
Defined.

(** ** The shape of an encoded date *)

Lemma length_app s u :
  String.length (s ++ u) = (String.length s + String.length u)%nat.
Proof. induction s as [|c s IH]; cbn; [reflexivity | rewrite IH; reflexivity]. Qed.

Lemma decimal_fuel f1 f2 n :
  (1 <= f1)%nat -> (1 <= f2)%nat ->
  0 <= n < 2 ^ Z.of_nat f1 -> n < 2 ^ Z.of_nat f2 ->
  Str.decimal f1 n = Str.decimal f2 n.
Proof.
  revert f2 n. induction f1 as [|f1 IH]; intros f2 n H1 H2 B1 B2; [lia|].
  destruct f2 as [|f2]; [lia|].
  cbn [Str.decimal]. destruct (Z.ltb_spec n 10); [reflexivity|].
  rewrite Nat2Z.inj_succ, Z.pow_succ_r in B1, B2 by lia.
  assert (P1 : 1 < 2 ^ Z.of_nat f1) by lia.
  assert (P2 : 1 < 2 ^ Z.of_nat f2) by lia.
  assert (F1 : (1 <= f1)%nat) by (destruct f1; [cbn in P1; lia | lia]).
  assert (F2 : (1 <= f2)%nat) by (destruct f2; [cbn in P2; lia | lia]).
  rewrite (IH f2 (n / 10)) by (try assumption; lia). reflexivity.
Qed.

Lemma log2_fuel n : 0 <= n -> n < 2 ^ Z.of_nat (S (Z.to_nat (Z.log2 n))).
Proof.
  intros H. rewrite Nat2Z.inj_succ, Z2Nat.id by apply Z.log2_nonneg.
  destruct (Z.eq_dec n 0) as [->|]; [cbn; lia|].
  apply Z.log2_spec. lia.
Qed.

Lemma ofNat_small n :
  0 <= n < 10 -> Str.ofNat n = String (Str.digitChar n) "".
Proof.
  intros H. unfold Str.ofNat. cbn [Str.decimal].
  destruct (Z.ltb_spec n 10); [|lia].
  rewrite Z.mod_small by lia. reflexivity.
Qed.

Lemma ofNat_step n :
  10 <= n ->
  Str.ofNat n = Str.ofNat (n / 10) ++ String (Str.digitChar (n mod 10)) "".
Proof.
  intros H. unfold Str.ofNat at 1. cbn [Str.decimal].
  destruct (Z.ltb_spec n 10); [lia|]. f_equal.
  pose proof (log2_fuel n ltac:(lia)) as B.
  rewrite Nat2Z.inj_succ, Z.pow_succ_r in B by lia.
  assert (P : 1 < 2 ^ Z.of_nat (Z.to_nat (Z.log2 n))) by lia.
  unfold Str.ofNat. apply decimal_fuel.
  - destruct (Z.to_nat (Z.log2 n)); [cbn in P; lia | lia].
  - lia.
  - lia.
  - apply log2_fuel. lia.
Qed.

Lemma ofNat_length_2 n : 10 <= n < 100 -> String.length (Str.ofNat n) = 2%nat.
Proof.
  intros H. rewrite ofNat_step, length_app, ofNat_small by lia. reflexivity.
Qed.

Lemma ofNat_length_4 n : 1000 <= n < 10000 -> String.length (Str.ofNat n) = 4%nat.
Proof.
  intros H. rewrite ofNat_step, length_app by lia.
  rewrite (ofNat_step (n / 10)), length_app by lia.
  rewrite ofNat_length_2 by lia. reflexivity.
Qed.

Lemma padStart_length_2 n :
  0 <= n < 100 -> String.length (Str.padStart 2 "0" (Str.ofNat n)) = 2%nat.
Proof.
  intros H. unfold Str.padStart.
  destruct (Z.ltb_spec n 10).
  - rewrite ofNat_small by lia. reflexivity.
  - rewrite length_app, ofNat_length_2 by lia. reflexivity.
Qed.

Section Shape.

Variable tza : Z.

(** X23: a date with a four-digit local year is encoded on ten characters:
    four digits for the year, a dash, two digits for the month, a dash,
    two digits for the day. *)
Theorem formatDateLocal_shape (t : Z) :
  1000 <= YearFromTime (LocalTime tza t) <= 9999 ->
  exists yy mm dd,
    formatDateLocal tza (mkDate (Int t)) = yy ++ "-" ++ mm ++ "-" ++ dd
    /\ String.length yy = 4%nat /\ String.length mm = 2%nat
    /\ String.length dd = 2%nat
    /\ Str.allDigits yy = true /\ Str.allDigits mm = true
    /\ Str.allDigits dd = true
    /\ String.length (formatDateLocal tza (mkDate (Int t))) = 10%nat.
Proof.
  intros Y.
  pose proof (MonthFromTime_range (LocalTime tza t)) as M.
  pose proof (DateFromTime_range (LocalTime tza t)) as D.
  rewrite formatDateLocal_valid by lia.
  eexists _, _, _. split; [reflexivity|].
  rewrite !length_app, ofNat_length_4, !padStart_length_2 by lia.
  rewrite ofNat_allDigits, !padStart_allDigits by lia.
  repeat split.
Qed.

End Shape.

(** Witness: noon of 15 June 2025 in Oslo. *)
Lemma formatDateLocal_shape_witness :
  exists yy mm dd,
    formatDateLocal cet (mkDate (Int 1749981600000)) = yy ++ "-" ++ mm ++ "-" ++ dd
    /\ String.length yy = 4%nat /\ String.length mm = 2%nat
    /\ String.length dd = 2%nat
    /\ Str.allDigits yy = true /\ Str.allDigits mm = true
    /\ Str.allDigits dd = true
    /\ String.length (formatDateLocal cet (mkDate (Int 1749981600000))) = 10%nat.
Proof.
  apply (formatDateLocal_shape cet 1749981600000).
  vm_compute. split; discriminate.
Defined.


(** ** The bounds of the filter *)

(** The canonical string of a calendar day decodes to the local midnight
    of that day. *)
Lemma parseLocalDate_canonical tza y m d :
  zoneInRange tza -> calendarDay y m d ->
  parseLocalDate tza (canonical y m d)
  = Some (mkDate (Int (MakeDate (MakeDay y (m - 1) d) 0 - tza))).
Proof.
  intros Z (Y & M & D).
  assert (D' : 1 <= d <= daysInMonth y (m - 1 + 1))
    by (replace (m - 1 + 1) with m by lia; exact D).
  pose proof (MakeDay_bounds y (m - 1) d Y ltac:(lia) D') as B.
  eapply parseLocalDate_local.
  - unfold canonical. apply parts_of_formatted; lia.
  - lia.
  - lia.
  - lia.
  - unfold MakeFullYear.
    destruct (Z.leb_spec y 99); [lia|]. rewrite andb_false_r. reflexivity.
  - unfold zoneInRange, MakeDate, msPerDay, maxTime in *. lia.
Qed.

Lemma calendarDay_number y m d :
  calendarDay y m d -> -683003 <= MakeDay y (m - 1) d < 99722525.
Proof.
  intros (Y & M & D). apply MakeDay_bounds; try lia.
  replace (m - 1 + 1) with m by lia. exact D.
Qed.

(** The filter between two calendar days, for canonical strings. *)
Lemma isEventWithinRange_canonical tza ys ms ds ye me de y m d :
  zoneInRange tza ->
  calendarDay ys ms ds -> calendarDay ye me de -> calendarDay y m d ->
  isEventWithinRange tza
    (canonical ys ms ds) (canonical ye me de) (canonical y m d)
  = Ret ((MakeDay ys (ms - 1) ds <=? MakeDay y (m - 1) d)
         && (MakeDay y (m - 1) d <=? MakeDay ye (me - 1) de)).
Proof.
  intros Z Cs Ce Cd.
  pose proof (parseLocalDate_canonical tza _ _ _ Z Cs) as Ps.
  pose proof (parseLocalDate_canonical tza _ _ _ Z Ce) as Pe.
  pose proof (parseLocalDate_canonical tza _ _ _ Z Cd) as Pd.
  pose proof (calendarDay_number _ _ _ Ce) as Be.
  set (Ds := MakeDay ys (ms - 1) ds) in *.
  set (De := MakeDay ye (me - 1) de) in *.
  set (Dd := MakeDay y (m - 1) d) in *.
  assert (E : Day (MakeDate De 0) = De)
    by (apply Day_MakeDate; unfold msPerDay; lia).
  rewrite (isEventWithinRange_local tza _ _ _ _ _ _
             (canonical_nonempty ys ms ds) (canonical_nonempty ye me de)
             (canonical_nonempty y m d) Pd Ps Pe).
  - f_equal. rewrite E. unfold MakeDate, MakeTime, msPerDay.
    destruct (Z.ltb_spec (Dd * 86400000 + 0) (Ds * 86400000 + 0)),
      (Z.ltb_spec (De * 86400000 + (23 * 3600000 + 59 * 60000 + 59 * 1000 + 999))
                  (Dd * 86400000 + 0)),
      (Z.leb_spec Ds Dd), (Z.leb_spec Dd De); cbn [negb andb];
      try reflexivity; lia.
  - rewrite E.
    unfold zoneInRange, MakeDate, MakeTime, msPerDay, maxTime in *. lia.
Qed.

Section Bounds.

Variable tza : Z.
Hypothesis tza_ok : zoneInRange tza.

(** C7: the start bound is inclusive from the start of its day and the
    end bound through the end of its day.  For bounds and an event date
    written by [formatDateLocal], and for the canonical strings of
    calendar days, the filter accepts the event exactly when its day lies
    between the day of the start bound and the day of the end bound, both
    included; with start = end = "2025-06-15" it accepts 15 June 2025 and
    rejects the day before and the day after. *)
Theorem filter_bounds_inclusive :
  (forall ts te td,
      validTime ts -> validTime te -> validTime (te + msPerDay) ->
      validTime td ->
      100 <= YearFromTime (LocalTime tza ts) ->
      100 <= YearFromTime (LocalTime tza te) ->
      100 <= YearFromTime (LocalTime tza td) ->
      isEventWithinRange tza
        (formatDateLocal tza (mkDate (Int ts)))
        (formatDateLocal tza (mkDate (Int te)))
        (formatDateLocal tza (mkDate (Int td)))
      = Ret ((Day (LocalTime tza ts) <=? Day (LocalTime tza td))
             && (Day (LocalTime tza td) <=? Day (LocalTime tza te))))
  /\ (forall ys ms ds ye me de y m d,
         calendarDay ys ms ds -> calendarDay ye me de -> calendarDay y m d ->
         isEventWithinRange tza
           (canonical ys ms ds) (canonical ye me de) (canonical y m d)
         = Ret ((MakeDay ys (ms - 1) ds <=? MakeDay y (m - 1) d)
                && (MakeDay y (m - 1) d <=? MakeDay ye (me - 1) de)))
  /\ isEventWithinRange tza "2025-06-15" "2025-06-15" "2025-06-15" = Ret true
  /\ isEventWithinRange tza "2025-06-15" "2025-06-15" "2025-06-14" = Ret false
  /\ isEventWithinRange tza "2025-06-15" "2025-06-15" "2025-06-16" = Ret false.
Proof.
  split; [|split].
  - intros ts te td. exact (isEventWithinRange_between tza ts te td tza_ok).
  - intros ys ms ds ye me de y m d.
    exact (isEventWithinRange_canonical tza ys ms ds ye me de y m d tza_ok).
  - exact (single_day_2025_06_15 tza tza_ok).
Qed.

End Bounds.

Lemma day_10_June_2025 : calendarDay 2025 6 10.
Proof.
  unfold calendarDay. repeat split; try lia; vm_compute; discriminate.
Defined.

Lemma day_20_June_2025 : calendarDay 2025 6 20.
Proof.
  unfold calendarDay. repeat split; try lia; vm_compute; discriminate.
Defined.

Lemma day_21_June_2025 : calendarDay 2025 6 21.
Proof.
  unfold calendarDay. repeat split; try lia; vm_compute; discriminate.
Defined.

(** C7, witness: in Oslo, from 10 to 20 June 2025, the last day is
    accepted and the day after it is rejected; a week of June 2025 between
    time values; and the single day of the specification. *)
Lemma filter_bounds_inclusive_witness :
  isEventWithinRange cet
    (canonical 2025 6 10) (canonical 2025 6 20) (canonical 2025 6 20)
  = Ret true
  /\ isEventWithinRange cet
       (canonical 2025 6 10) (canonical 2025 6 20) (canonical 2025 6 21)
     = Ret false
  /\ (isEventWithinRange cet
        (formatDateLocal cet (mkDate (Int 1749981600000)))
        (formatDateLocal cet (mkDate (Int 1750413600000)))
        (formatDateLocal cet (mkDate (Int 1750154400000)))
      = Ret ((Day (LocalTime cet 1749981600000)
              <=? Day (LocalTime cet 1750154400000))
             && (Day (LocalTime cet 1750154400000)
                 <=? Day (LocalTime cet 1750413600000))))
  /\ isEventWithinRange cet "2025-06-15" "2025-06-15" "2025-06-15" = Ret true
  /\ isEventWithinRange cet "2025-06-15" "2025-06-15" "2025-06-14" = Ret false
  /\ isEventWithinRange cet "2025-06-15" "2025-06-15" "2025-06-16" = Ret false.
Proof.
  destruct (filter_bounds_inclusive cet cet_inRange) as (G & K & E).
  split; [|split; [|split]].
  - rewrite (K _ _ _ _ _ _ _ _ _ day_10_June_2025 day_20_June_2025
               day_20_June_2025).
    vm_compute. reflexivity.
  - rewrite (K _ _ _ _ _ _ _ _ _ day_10_June_2025 day_20_June_2025
               day_21_June_2025).
    vm_compute. reflexivity.
  - apply G.
    + unfold validTime, maxTime. lia.
    + unfold validTime, maxTime. lia.
    + unfold validTime, maxTime, msPerDay. lia.
    + unfold validTime, maxTime. lia.
    + vm_compute. discriminate.
    + vm_compute. discriminate.
    + vm_compute. discriminate.
  - exact E.
Defined.
